(** * Generic REST resources of [flask_restplus_patched]

    A shallow embedding of [flask_restplus_patched/utils.py] and
    [flask_restplus_patched/generics/base.py], followed by the properties
    of the decorator chain, the list handler, the create handler and the
    registration step ([_document_resource]).

    Python values are embedded as [value]; a raised exception is the
    [Raise] case of [result]; code that mutates a class or the database
    session threads the mutated object through the [M] monad, which keeps
    the state reached at the moment an exception is raised. *)

From Stdlib Require Import ZArith List String Ascii Bool Lia.
From stdpp Require Import base option list strings gmap.
Import ListNotations.

Local Open Scope string_scope.

#[local] Set Warnings "-register-all".

(** ** Python values, exceptions and results *)

Inductive value : Type :=
| PyNone
| PyBool (b : bool)
| PyInt (z : Z)
| PyStr (s : string)
| PyList (items : list value)
| PyDict (items : list (string * value)).

(** Python truthiness, as used by [if x:] and [not x]. *)
Definition truthy (v : value) : bool :=
  match v with
  | PyNone => false
  | PyBool b => b
  | PyInt z => negb (z =? 0)%Z
  | PyStr s => negb (String.eqb s "")
  | PyList items => negb (Nat.eqb (length items) 0)
  | PyDict items => negb (Nat.eqb (length items) 0)
  end.

Inductive exn : Type :=
| AssertionError (msg : string)
| AttributeError (owner attr : string)
| TypeError (msg : string)
| KeyError (key : string)
| IntegrityError (msg : string)
| HTTPException (code : Z) (message : string)
| OtherError (msg : string).

Inductive result (A : Type) : Type :=
| Ok (a : A)
| Raise (e : exn).
Arguments Ok {A} a.
Arguments Raise {A} e.

#[global] Instance result_ret : MRet result := @Ok.
#[global] Instance result_bind : MBind result :=
  fun A B f m => match m with Ok a => f a | Raise e => Raise e end.

(** [d[key]] on a Python value. *)
Fixpoint assoc (key : string) (items : list (string * value)) : option value :=
  match items with
  | [] => None
  | (k, v) :: rest => if String.eqb k key then Some v else assoc key rest
  end.

Definition getitem (d : value) (key : string) : result value :=
  match d with
  | PyDict items =>
      match assoc key items with
      | Some v => Ok v
      | None => Raise (KeyError key)
      end
  | _ => Raise (TypeError "object is not subscriptable")
  end.

(** Code that mutates an object of type [S] (a class, the database
    session): the state reached so far is kept when an exception is
    raised. *)
Definition M (S A : Type) : Type := S -> result A * S.

Definition ret {S A : Type} (a : A) : M S A := fun s => (Ok a, s).

Definition raise {S A : Type} (e : exn) : M S A := fun s => (Raise e, s).

Definition bind {S A B : Type} (m : M S A) (k : A -> M S B) : M S B :=
  fun s => match m s with
           | (Ok a, s') => k a s'
           | (Raise e, s') => (Raise e, s')
           end.

Definition lift {S A : Type} (r : result A) : M S A := fun s => (r, s).

#[global] Instance M_ret {S : Type} : MRet (M S) := @ret S.
#[global] Instance M_bind {S : Type} : MBind (M S) := fun A B k m => bind m k.

(** [for x in xs: body(x)]. *)
Fixpoint for_each {S A : Type} (xs : list A) (body : A -> M S unit) : M S unit :=
  match xs with
  | [] => ret tt
  | x :: rest => body x ;; for_each rest body
  end.

(** [str.lower()] on ASCII text. *)
Definition lower_ascii (c : ascii) : ascii :=
  let n := nat_of_ascii c in
  if (Nat.leb 65 n && Nat.leb n 90)%bool then ascii_of_nat (n + 32) else c.

Fixpoint lower (s : string) : string :=
  match s with
  | EmptyString => EmptyString
  | String c rest => String (lower_ascii c) (lower rest)
  end.

(** ** External collaborators, as far as the generics use them *)

(** An HTTP response: the body handed to the JSON encoder and the status. *)
Record Response : Type := mkResponse { body : value; status : Z }.

(** [flask.jsonify], called with positional arguments [args] and keyword
    arguments [kwargs]: positional and keyword arguments together are
    refused; a single positional argument is the payload, several are a
    list, keyword arguments alone are a dictionary; the response has the
    default status, 200. The handlers take [jsonify] as a parameter; this
    is the function Flask provides since 0.11. *)
Definition flask_jsonify (args : list value) (kwargs : list (string * value))
  : result Response :=
  match args, kwargs with
  | _ :: _, _ :: _ =>
      Raise (TypeError "jsonify() behavior undefined when passed both args and kwargs")
  | [payload], [] => Ok (mkResponse payload 200)
  | [], _ => Ok (mkResponse (PyDict kwargs) 200)
  | _, [] => Ok (mkResponse (PyList args) 200)
  end.

(** The result of a marshmallow [dump]: [MarshalResult(data, errors)]. *)
Record MarshalResult : Type := mkMarshalResult { data : value; errors : value }.

(** An instance [C()] of a class [C]. *)
Inductive instance (C : Type) : Type := new (c : C).
Arguments new {C} c.

Section Collaborators.
Context {Entity : Type}.

(** A lazy SQLAlchemy query: the rows it ranges over and the [OFFSET] and
    [LIMIT] it was given, if any. *)
Record Query : Type := mkQuery {
  q_rows : list Entity;
  q_offset : option value;
  q_limit : option value
}.

Definition offset (o : value) (q : Query) : Query :=
  mkQuery (q_rows q) (Some o) (q_limit q).

Definition limit (l : value) (q : Query) : Query :=
  mkQuery (q_rows q) (q_offset q) (Some l).

(** A row count given to [OFFSET] or [LIMIT]: absent or [None] is no
    bound, a non-negative integer is a bound, anything else has no
    meaning for the store. *)
Definition bound (v : option value) : option (option nat) :=
  match v with
  | None | Some PyNone => Some None
  | Some (PyInt z) => if (0 <=? z)%Z then Some (Some (Z.to_nat z)) else None
  | Some _ => None
  end.

(** The rows a query yields when iterated. *)
Definition fetch (q : Query) : option (list Entity) :=
  match bound (q_offset q), bound (q_limit q) with
  | Some o, Some l =>
      let rows := match o with Some n => skipn n (q_rows q) | None => q_rows q end in
      Some (match l with Some n => firstn n rows | None => rows end)
  | _, _ => None
  end.

(** A declarative model class: [Model.query] and the constructor
    [Model(k=v, ...)]. *)
Record Model : Type := mkModel {
  model_name : string;
  query : Query;
  construct : value -> result Entity
}.

(** A marshmallow schema class: [Schema(many=m1).dump(queryset, many=m2)]. *)
Record SchemaClass : Type := mkSchemaClass {
  schema_name : string;
  schema_dump : bool -> Query -> bool -> result MarshalResult
}.

(** A [Parameters] class: [P().dump(args)]. *)
Record ParametersClass : Type := mkParametersClass {
  parameters_name : string;
  parameters_dump : value -> result MarshalResult
}.

Record PermissionClass : Type := mkPermissionClass { permission_name : string }.

(** What is handed to [namespace.response(model=...)]: a schema instance
    built with [many=...], or the schema class itself. *)
Inductive schema_arg : Type :=
| SchemaInstance (c : SchemaClass) (many : bool)
| SchemaType (c : SchemaClass).

(** The keyword arguments of [namespace.response]; an absent keyword and
    [None] are both [None]. *)
Record response_kwargs : Type := mkResponseKwargs {
  kw_code : option Z;
  kw_model : option schema_arg
}.

(** The namespace: each method returns a decorator of handlers. *)
Record Namespace (H : Type) : Type := mkNamespace {
  response : response_kwargs -> H -> H;
  ns_parameters : instance ParametersClass -> H -> H;
  permission_required : instance PermissionClass -> H -> H
}.

(** The generic classes of [generics/base.py]. *)
Inductive generic : Type :=
| KGenericResource
| KListAPIResource
| KCreateAPIResource
| KListCreateAPIResource.

(** A resource class: the generic class it derives from and the class
    attributes it declares. [methods] is the list of HTTP verbs the view
    class defines, in upper case. *)
Record Resource : Type := mkResource {
  class_name : string;
  base : generic;
  model : option Model;
  schema : option SchemaClass;
  parameters : option ParametersClass;
  permission_classes : option (list PermissionClass);
  pagination_class : option ParametersClass;
  methods : list string
}.

End Collaborators.
Arguments Query : clear implicits.
Arguments Model : clear implicits.
Arguments SchemaClass : clear implicits.
Arguments schema_arg : clear implicits.
Arguments response_kwargs : clear implicits.
Arguments Namespace : clear implicits.
Arguments Resource : clear implicits.
Arguments response {Entity H} n _ _.
Arguments ns_parameters {Entity H} n _ _.
Arguments permission_required {Entity H} n _ _.

(** ** Python idioms shared by the classes *)

(** [if x:] on an attribute that is [None] or a class. *)
Definition is_declared {A : Type} (attr : option A) : bool :=
  match attr with Some _ => true | None => false end.

(** [if xs:] on an attribute that is [None] or a list. *)
Definition is_nonempty {A : Type} (attr : option (list A)) : bool :=
  match attr with Some (_ :: _) => true | _ => false end.

(** [C(...)] where [C] is an attribute that is [None] or a class. *)
Definition call_class {A : Type} (attr : option A) : result A :=
  match attr with
  | Some c => Ok c
  | None => Raise (TypeError "'NoneType' object is not callable")
  end.

(** [functools.wraps(wrapped)(wrapper)]: copies the name and docstring of
    [wrapped] onto [wrapper] and returns [wrapper]. *)
Definition wraps {A B : Type} (wrapped : A) (wrapper : B) : B := wrapper.

(** [getattr(cls, name)] and [setattr(cls, name, f)] on the verb handlers
    of a class. *)
Definition getattr {H : Type} (owner name : string) : M (gmap string H) H :=
  fun attrs =>
    match attrs !! name with
    | Some f => (Ok f, attrs)
    | None => (Raise (AttributeError owner name), attrs)
    end.

Definition setattr {H : Type} (name : string) (f : H) : M (gmap string H) unit :=
  fun attrs => (Ok tt, <[name := f]> attrs).

(** The method resolution order of the generic classes. *)
Definition mro (k : generic) : list generic :=
  match k with
  | KGenericResource => [KGenericResource]
  | KListAPIResource => [KListAPIResource; KGenericResource]
  | KCreateAPIResource => [KCreateAPIResource; KGenericResource]
  | KListCreateAPIResource =>
      [KListCreateAPIResource; KListAPIResource; KCreateAPIResource; KGenericResource]
  end.

(** The value of a settings dictionary of the list handler: a list of
    decorators or one decorator. *)
Inductive setting (D : Type) : Type :=
| Several (ds : list D)
| Single (d : D).
Arguments Several {D} ds.
Arguments Single {D} d.

Definition getlist {D : Type} (settings : gmap string (setting D)) (key : string)
  : result (list D) :=
  match settings !! key with
  | Some (Several ds) => Ok ds
  | Some (Single _) => Raise (TypeError "can only concatenate list to list")
  | None => Raise (KeyError key)
  end.

Definition getone {D : Type} (settings : gmap string (setting D)) (key : string)
  : result D :=
  match settings !! key with
  | Some (Single d) => Ok d
  | Some (Several _) => Raise (TypeError "a list is not a decorator")
  | None => Raise (KeyError key)
  end.

(** ** [flask_restplus_patched/utils.py] *)

Module utils.

(** [for d in reversed(decorators): func = d(func)]. *)
Definition bulk_decorate {H : Type} (decorators : list (H -> H)) : H -> H :=
  fun func => fold_left (fun func d => d func) (rev decorators) func.

End utils.

(** A handler that reports the wrappers that ran before it, in the order
    in which they ran, next to its response. *)
Definition traced (Req Resp : Type) : Type := Req -> list string * Resp.

(** A decorator that announces itself on a call and then calls the
    wrapped handler. *)
Definition announce {Req Resp : Type} (label : string)
    (h : traced Req Resp) : traced Req Resp :=
  fun req => let '(seen, resp) := h req in (label :: seen, resp).

(** ** [flask_restplus_patched/generics/base.py] *)

Module GenericResource.
Section Methods.
Context {Entity H : Type}.

Definition _document_resource (cls : Resource Entity)
    (namespace : Namespace Entity H) (target : option (Resource Entity))
  : M (gmap string H) unit :=
  let target := match target with Some t => t | None => cls end in
  let decorators_to_apply :=
    if is_nonempty (permission_classes target) then
      map (fun permission => permission_required namespace (new permission))
          (default [] (permission_classes target))
    else [] in
  if Nat.ltb 0 (length decorators_to_apply) then
    for_each decorators_to_apply (fun decorator =>
      for_each (methods target) (fun method =>
        let method_name := lower method in
        f ← getattr (class_name target) method_name;
        setattr method_name (decorator f)))
  else mret tt.

Definition get_queryset (self : Resource Entity) : result (Query Entity) :=
  match model self with
  | None =>
      Raise (AssertionError
        ("'" ++ class_name self ++ "' should either include a `queryset` attribute, "
         ++ "or override the `get_queryset()` method."))
  | Some m => let queryset := query m in Ok queryset
  end.

Definition get_schema (self : Resource Entity) : option (SchemaClass Entity) :=
  schema self.

Definition get_parameters (self : Resource Entity) : option ParametersClass :=
  parameters self.

End Methods.
End GenericResource.

Module ListAPIResource.
Section Methods.
Context {Entity H : Type}.

(** [queryset] is a query object or [None]; a query object is truthy. *)
Definition _paginate (self : Resource Entity) (args : value)
    (queryset : option (Query Entity)) : result (Query Entity) :=
  match pagination_class self with
  | None =>
      Raise (AssertionError
        ("'" ++ class_name self ++ "' should both include a `pagination_class` attribute and "
         ++ "it must be an instance of `Paramaters` (now '<class 'NoneType'>')"))
  | Some pagination_class =>
      dumped ← parameters_dump pagination_class args;
      let pagination_parameters := data dumped in
      queryset ← match queryset with
                 | Some q => Ok q
                 | None => GenericResource.get_queryset self
                 end;
      o ← getitem pagination_parameters "offset";
      l ← getitem pagination_parameters "limit";
      Ok (limit l (offset o queryset))
  end.

Definition get (jsonify : list value -> list (string * value) -> result Response)
    (self : Resource Entity) (pagination_args : value)
    (kwargs : list (string * value)) : result Response :=
  schema_class ← call_class (GenericResource.get_schema self);
  queryset ← GenericResource.get_queryset self;
  queryset ← (if is_declared (pagination_class self)
              then _paginate self pagination_args (Some queryset)
              else Ok queryset);
  collection ← schema_dump schema_class true queryset true;
  if truthy (errors collection)
  then jsonify [errors collection] [("status", PyInt 400)]
  else jsonify [data collection] [].

Definition get_method_input_output_settings (cls : Resource Entity)
    (namespace : Namespace Entity H) : result (gmap string (setting (H -> H))) :=
  schema_class ← call_class (schema cls);
  let settings : gmap string (setting (H -> H)) :=
    {[ "response_schemas" :=
         Several [ response namespace (mkResponseKwargs (Some 400%Z) None);
                   response namespace
                     (mkResponseKwargs None (Some (SchemaInstance schema_class true))) ] ]} in
  let settings :=
    if is_declared (pagination_class cls) || is_declared (parameters cls) then
      match pagination_class cls with
      | Some pagination_class =>
          <["parameters" := Single (ns_parameters namespace (new pagination_class))]> settings
      | None =>
          match parameters cls with
          | Some parameters =>
              <["parameters" := Single (ns_parameters namespace (new parameters))]> settings
          | None => settings
          end
      end
    else settings in
  let settings :=
    if is_nonempty (permission_classes cls) then
      <["permissions" :=
          Several (map (fun permission => permission_required namespace (new permission))
                       (default [] (permission_classes cls)))]> settings
    else settings in
  Ok settings.

(** The conditional expression of the source groups as
    [(a + b) if c else ((d + e) if f else g)]. *)
Definition _get_method_decorators (cls : Resource Entity)
    (namespace : Namespace Entity H) : result (list (H -> H)) :=
  settings ← get_method_input_output_settings cls namespace;
  if bool_decide (is_Some (settings !! "parameters")) then
    responses ← getlist settings "response_schemas";
    parameters ← getone settings "parameters";
    Ok (responses ++ [parameters])%list
  else if bool_decide (is_Some (settings !! "permissions")) then
    permissions ← getlist settings "permissions";
    Ok ([] ++ permissions)%list
  else Ok [].

Definition _document_resource (cls : Resource Entity)
    (namespace : Namespace Entity H) : M (gmap string H) unit :=
  GenericResource._document_resource cls namespace (Some cls);;
  decorators_to_apply ← lift (_get_method_decorators cls namespace);
  get ← getattr (class_name cls) "get";
  setattr "get" (wraps get (utils.bulk_decorate decorators_to_apply) get).

End Methods.
End ListAPIResource.

(** *** The database session used by the create handler *)

Section Persistence.
Context {Entity : Type}.

(** Modelled from the spec: the session of [app.extensions.db], the
    rows already committed and the objects added but not yet flushed. *)
Record Session : Type := mkSession {
  committed : list Entity;
  pending : list Entity
}.

(** Modelled from the spec: the store behind [app.extensions.db] reports
    a uniqueness or integrity conflict on insert; [conflict db rows obj]
    is the message of the conflict that inserting [obj] next to [rows]
    raises, if any. *)
Record Database : Type := mkDatabase {
  conflict : list Entity -> Entity -> option string
}.

(** [db.session.add(obj)]. *)
Definition add (obj : Entity) : M Session unit :=
  fun s => (Ok tt, mkSession (committed s) (pending s ++ [obj])).

(** Modelled from the spec: the commit inserts the pending objects in the
    order in which they were added and stops at the first conflict. *)
Fixpoint flush (db : Database) (rows objs : list Entity) : result (list Entity) :=
  match objs with
  | [] => Ok rows
  | obj :: rest =>
      match conflict db rows obj with
      | Some msg => Raise (IntegrityError msg)
      | None => flush db (rows ++ [obj]) rest
      end
  end.

(** Modelled from the spec: the scoped transactional unit of work of
    [app.extensions.db], [with db.session.begin(): body]. On normal exit
    of the body the pending objects are committed; on any exception,
    raised by the body or by the commit, the unit of work is rolled back
    before the exception propagates. *)
Definition begin (db : Database) (body : M Session unit) : M Session unit :=
  fun s =>
    match body s with
    | (Ok _, s') =>
        match flush db (committed s') (pending s') with
        | Ok rows => (Ok tt, mkSession rows [])
        | Raise e => (Raise e, s)
        end
    | (Raise e, _) => (Raise e, s)
    end.

End Persistence.
Arguments Session : clear implicits.
Arguments Database : clear implicits.

(** Modelled from the spec: [http_exceptions.abort(code, message)] of
    [app.extensions.api] aborts the request with the given status and
    message. *)
Definition abort {S A : Type} (code : Z) (message : string) : M S A :=
  raise (HTTPException code message).

(** [try: body except ...: handler]; [handler e] is [None] when no
    [except] clause matches [e]. *)
Definition try_except {S A : Type} (body : M S A) (handler : exn -> option (M S A))
  : M S A :=
  fun s =>
    match body s with
    | (Raise e, s') =>
        match handler e with
        | Some h => h s'
        | None => (Raise e, s')
        end
    | ok => ok
    end.

Module CreateAPIResource.
Section Methods.
Context {Entity H : Type}.

Definition post (db : Database Entity) (self : Resource Entity) (args : value)
  : M (Session Entity) Entity :=
  model ← lift (call_class (model self));
  obj ← lift (construct model args);
  try_except
    (begin db (add obj))
    (fun exception =>
       match exception with
       | IntegrityError msg => Some (abort 409%Z msg)
       | _ => None
       end);;
  mret obj.

(** The value of a settings dictionary of the create handler. *)
Inductive post_setting : Type :=
| ResponseSchemas (responses : list (response_kwargs Entity))
| ParametersObject (parameters : instance ParametersClass)
| Permissions (permissions : list (instance PermissionClass)).

Definition post_method_settings (self : Resource Entity) : gmap string post_setting :=
  let settings : gmap string post_setting :=
    {[ "response_schemas" :=
         ResponseSchemas
           [ mkResponseKwargs (Some 400%Z) None;
             mkResponseKwargs (Some 200%Z)
               (SchemaType <$> GenericResource.get_schema self) ] ]} in
  let settings :=
    match parameters self with
    | Some parameters => <["parameters" := ParametersObject (new parameters)]> settings
    | None => settings
    end in
  let settings :=
    if is_nonempty (permission_classes self) then
      <["permissions" :=
          Permissions (map new (default [] (permission_classes self)))]> settings
    else settings in
  settings.

Definition get_responses (settings : gmap string post_setting)
  : result (list (response_kwargs Entity)) :=
  match settings !! "response_schemas" with
  | Some (ResponseSchemas responses) => Ok responses
  | Some _ => Raise (TypeError "object is not iterable")
  | None => Raise (KeyError "response_schemas")
  end.

Definition get_parameters_object (settings : gmap string post_setting)
  : result (instance ParametersClass) :=
  match settings !! "parameters" with
  | Some (ParametersObject parameters) => Ok parameters
  | Some _ => Raise (TypeError "not a Parameters object")
  | None => Raise (KeyError "parameters")
  end.

Definition get_permissions (settings : gmap string post_setting)
  : result (list (instance PermissionClass)) :=
  match settings !! "permissions" with
  | Some (Permissions permissions) => Ok permissions
  | Some _ => Raise (TypeError "object is not iterable")
  | None => Raise (KeyError "permissions")
  end.

(** The conditional expression of the source groups as
    [(a + b) if c else ((d + e) if f else g)]. [post_method_settings] is
    the method of this class also for a [ListCreateAPIResource], whose
    override calls it through [super]. *)
Definition _post_method_decorators (self : Resource Entity)
    (namespace : Namespace Entity H) : result (list (H -> H)) :=
  let settings := post_method_settings self in
  if bool_decide (is_Some (settings !! "parameters")) then
    responses ← get_responses settings;
    parameters ← get_parameters_object settings;
    Ok (map (response namespace) responses ++ [ns_parameters namespace parameters])%list
  else if bool_decide (is_Some (settings !! "permissions")) then
    permissions ← get_permissions settings;
    Ok ([] ++ map (permission_required namespace) permissions)%list
  else Ok [].

(** The methods of the generic classes that take [namespace] and build a
    decorator list, by defining class and name. *)
Definition decorator_builders (k : generic)
  : list (string * (Resource Entity -> Namespace Entity H -> result (list (H -> H)))) :=
  match k with
  | KListAPIResource => [("_get_method_decorators", ListAPIResource._get_method_decorators)]
  | KCreateAPIResource => [("_post_method_decorators", _post_method_decorators)]
  | KGenericResource | KListCreateAPIResource => []
  end.

(** [instance.name] for such a method: the first class of the method
    resolution order that defines [name], or [AttributeError]. *)
Definition getattr_builder (self : Resource Entity) (name : string)
  : result (Resource Entity -> Namespace Entity H -> result (list (H -> H))) :=
  match omap (fun k => snd <$> List.find (fun entry => String.eqb (fst entry) name)
                                       (decorator_builders k))
             (mro (base self)) with
  | method :: _ => Ok method
  | [] => Raise (AttributeError (class_name self) name)
  end.

(** The source asks the instance for [_post_method_decoratos]. *)
Definition _document_resource (cls : Resource Entity)
    (namespace : Namespace Entity H) : M (gmap string H) unit :=
  GenericResource._document_resource cls namespace (Some cls);;
  let instance := cls in
  method ← lift (getattr_builder instance "_post_method_decoratos");
  decorators_to_apply ← lift (method instance namespace);
  post ← getattr (class_name cls) "post";
  setattr "post" (wraps post (utils.bulk_decorate decorators_to_apply) post).

End Methods.
End CreateAPIResource.

Module ListCreateAPIResource.
Section Methods.
Context {Entity H : Type}.

Definition get := @ListAPIResource.get Entity.

Definition post := @CreateAPIResource.post Entity.

Definition post_method_settings := @CreateAPIResource.post_method_settings Entity.

Definition _document_resource (cls : Resource Entity)
    (namespace : Namespace Entity H) : M (gmap string H) unit :=
  let instance := cls in
  get_method_decorators ← lift (ListAPIResource._get_method_decorators cls namespace);
  get ← getattr (class_name cls) "get";
  setattr "get" (wraps get (utils.bulk_decorate get_method_decorators) get);;
  post_method_decoratos ← lift (CreateAPIResource._post_method_decorators instance namespace);
  post ← getattr (class_name cls) "post";
  setattr "post" (wraps post (utils.bulk_decorate post_method_decoratos) post).

End Methods.
End ListCreateAPIResource.

(** [cls._document_resource(namespace)]: the method of the most derived
    generic class. *)
Definition _document_resource {Entity H : Type} (cls : Resource Entity)
    (namespace : Namespace Entity H) : M (gmap string H) unit :=
  match base cls with
  | KGenericResource => GenericResource._document_resource cls namespace None
  | KListAPIResource => ListAPIResource._document_resource cls namespace
  | KCreateAPIResource => CreateAPIResource._document_resource cls namespace
  | KListCreateAPIResource => ListCreateAPIResource._document_resource cls namespace
  end.

(** The decorator list as the specification words it: the response
    entries, then the parameters entry if there is one, then the
    permission entries. *)
Definition specified_decorators {H : Type} (responses : list (H -> H))
    (parameters : option (H -> H)) (permissions : list (H -> H)) : list (H -> H) :=
  (responses ++ option_list parameters ++ permissions)%list.

(** ** A namespace that records the wrappers, and sample resources *)

(** A wrapper put around a handler by a decorator of the namespace. *)
Inductive wrapper : Type :=
| WResponse (code : option Z) (model : option (string * option bool))
| WParameters (parameters : string)
| WPermission (permission : string).

(** A handler described by its wrappers, outermost first, and the name of
    the method they wrap. *)
Definition described : Type := (list wrapper * string)%type.

Definition wrap (w : wrapper) (h : described) : described := (w :: fst h, snd h).

Definition describe_schema {Entity : Type} (a : schema_arg Entity)
  : string * option bool :=
  match a with
  | SchemaInstance c many => (schema_name c, Some many)
  | SchemaType c => (schema_name c, None)
  end.

Definition recorder {Entity : Type} : Namespace Entity described :=
  @mkNamespace Entity described
    (fun kw => wrap (WResponse (kw_code kw) (describe_schema <$> kw_model kw)))
    (fun '(new p) => wrap (WParameters (parameters_name p)))
    (fun '(new p) => wrap (WPermission (permission_name p))).

(** How many times the permission check named [p] is wrapped around [h]. *)
Definition permission_wraps (p : string) (h : described) : nat :=
  length (List.filter (fun w => match w with
                                | WPermission q => String.eqb p q
                                | _ => false
                                end) (fst h)).

Module Example.

Definition rows : list string := ["ant"; "bee"; "cat"; "dog"; "eel"].

Definition Widget : Model string :=
  mkModel "Widget" (mkQuery rows None None)
    (fun args =>
       match getitem args "name" with
       | Ok (PyStr name) => Ok name
       | Ok _ => Raise (TypeError "name must be a string")
       | Raise e => Raise e
       end).

Definition dump_names (q : Query string) : result MarshalResult :=
  match fetch q with
  | Some names => Ok (mkMarshalResult (PyList (map PyStr names)) (PyDict []))
  | None => Raise (OtherError "the store refused the query")
  end.

Definition WidgetSchema : SchemaClass string :=
  mkSchemaClass "WidgetSchema" (fun _ q _ => dump_names q).

Definition name_errors : value :=
  PyDict [("0", PyDict [("name", PyList [PyStr "Not a valid string."])])].

(** A schema whose dump reports an error for the first row. *)
Definition StrictSchema : SchemaClass string :=
  mkSchemaClass "StrictSchema" (fun _ _ _ => Ok (mkMarshalResult (PyList []) name_errors)).

Definition PaginationParameters : ParametersClass :=
  mkParametersClass "PaginationParameters"
    (fun args => Ok (mkMarshalResult args (PyDict []))).

Definition WidgetParameters : ParametersClass :=
  mkParametersClass "WidgetParameters"
    (fun args => Ok (mkMarshalResult args (PyDict []))).

Definition AdminOnly : PermissionClass := mkPermissionClass "AdminOnly".

(** [model = Widget], [schema = WidgetSchema], nothing else declared. *)
Definition plain (k : generic) (verbs : list string) : Resource string :=
  mkResource "Widgets" k (Some Widget) (Some WidgetSchema) None None None verbs.

(** As [plain], with [parameters] and one permission class. *)
Definition guarded (k : generic) (verbs : list string) : Resource string :=
  mkResource "Widgets" k (Some Widget) (Some WidgetSchema)
    (Some WidgetParameters) (Some [AdminOnly]) None verbs.

(** As [plain], with one permission class only. *)
Definition restricted (k : generic) (verbs : list string) : Resource string :=
  mkResource "Widgets" k (Some Widget) (Some WidgetSchema)
    None (Some [AdminOnly]) None verbs.

Definition paginated : Resource string :=
  mkResource "Widgets" KListAPIResource (Some Widget) (Some WidgetSchema)
    (Some WidgetParameters) None (Some PaginationParameters) ["GET"].

Definition strict : Resource string :=
  mkResource "Widgets" KListAPIResource (Some Widget) (Some StrictSchema)
    None None None ["GET"].

Definition unnamed : Resource string :=
  mkResource "Widgets" KListAPIResource None (Some WidgetSchema) None None None ["GET"].

(** The verb handlers of the class before registration. *)
Definition handlers : gmap string described :=
  {[ "get" := ([], "get"); "post" := ([], "post") ]}.

(** A store with a unique-name constraint. *)
Definition unique_names : Database string :=
  @mkDatabase string
    (fun rows name =>
       if existsb (String.eqb name) rows
       then Some ("UNIQUE constraint failed: widget.name " ++ name)
       else None).

Definition page (o l : Z) : value := PyDict [("offset", PyInt o); ("limit", PyInt l)].

End Example.

(** ** [tasks/app/_utils.py] *)

Module tasks.
Section Tasks.
Context {App : Type}.

(** An argument of a task: a plain value or an application object. *)
Inductive pyobj : Type :=
| Val (v : value)
| AppObj (app : App).

(** A Python function object: its name, its declared parameters, what a
    call does to the stack of active application contexts, and the
    function found under [__wrapped__], if any. *)
Inductive function : Type :=
| Function (name : string) (params : list string)
    (call : list pyobj -> gmap string pyobj -> M (list App) value)
    (wrapped : option function).

Definition __name__ (f : function) : string :=
  match f with Function name _ _ _ => name end.

Definition params (f : function) : list string :=
  match f with Function _ params _ _ => params end.

Definition call (f : function) : list pyobj -> gmap string pyobj -> M (list App) value :=
  match f with Function _ _ call _ => call end.

Definition __wrapped__ (f : function) : option function :=
  match f with Function _ _ _ wrapped => wrapped end.

(** [functools.wraps(wrapped)(wrapper)] of Python 3: [wrapper] takes the
    name of [wrapped] and refers to it under [__wrapped__]. *)
Definition functools_wraps (wrapped wrapper : function) : function :=
  Function (__name__ wrapped) (params wrapper) (call wrapper) (Some wrapped).

(** [with app.app_context(): body]: the context is pushed on entry and
    popped on exit, whether the body returns or raises. *)
Definition app_context {A : Type} (app : App) (body : M (list App) A)
  : M (list App) A :=
  fun stack => let '(r, stack') := body (app :: stack) in (r, tail stack').

(** An [invoke] task: the body it runs and the options it was given. *)
Record Task : Type := mkTask {
  body : function;
  options : gmap string pyobj
}.

(** [Task.argspec(body)]; [base_argspec] is the method of the base
    class. *)
Fixpoint argspec {Spec : Type} (base_argspec : function -> Spec) (body : function) : Spec :=
  match body with
  | Function _ _ _ (Some inner) => argspec base_argspec inner
  | Function _ _ _ None => base_argspec body
  end.

(** The [wrapper] that [app_context_task] defines around [func];
    [create_app] is [app.create_app]. *)
Definition wrapper (create_app : M (list App) App) (func : function)
    (args : list pyobj) (kwargs : gmap string pyobj) : M (list App) value :=
  let app := default (Val PyNone) (kwargs !! "app") in
  let kwargs := delete "app" kwargs in
  app ← match app with
        | Val PyNone => create_app
        | AppObj app => mret app
        | Val _ => raise (AttributeError "object" "app_context")
        end;
  app_context app (call func args kwargs).

(** The branch of [app_context_task] for one positional argument. *)
Definition decorated (create_app : M (list App) App) (func : function)
    (kwargs : gmap string pyobj) : Task :=
  mkTask
    (functools_wraps func
       (Function "wrapper" ["*args"; "**kwargs"] (wrapper create_app func) None))
    kwargs.

(** [app_context_task], called with positional arguments [args] and
    keyword arguments [kwargs]: a task for one positional
    argument, otherwise a decorator; the decorator calls
    [app_context_task] again with the function as only positional
    argument, which takes the first branch. *)
Definition app_context_task (create_app : M (list App) App)
    (args : list function) (kwargs : gmap string pyobj) : Task + (function -> Task) :=
  if Nat.eqb (length args) 1 then
    match args with
    | func :: _ => inl (decorated create_app func kwargs)
    | [] => inr (fun func => decorated create_app func kwargs)
    end
  else inr (fun func => decorated create_app func kwargs).

End Tasks.
Arguments pyobj : clear implicits.
Arguments function : clear implicits.
Arguments Task : clear implicits.
End tasks.

(** A sample task and application factory. *)
Module TaskExample.

(** A task body that reports whether it was given an [app] keyword. *)
Definition my_task : tasks.function string :=
  tasks.Function "my_task" ["context"; "some_arg"; "some_option"]
    (fun _ kwargs => mret (PyBool (bool_decide (is_Some (kwargs !! "app")))))
    None.

Definition create_app : M (list string) string := mret "default".

Definition logged : tasks.function string :=
  tasks.Function "logged" ["*args"; "**kwargs"] (tasks.call my_task) None.

End TaskExample.

(** ** Properties of the decorator-chain applicator *)

Lemma bulk_decorate_cons {H : Type} (d : H -> H) (ds : list (H -> H)) (f : H) :
  utils.bulk_decorate (d :: ds) f = d (utils.bulk_decorate ds f).
Proof.
  unfold utils.bulk_decorate. simpl. rewrite fold_left_app. reflexivity.
Qed.

Lemma bulk_decorate_fold_right {H : Type} (ds : list (H -> H)) (f : H) :
  utils.bulk_decorate ds f = fold_right (fun d acc => d acc) f ds.
Proof.
  induction ds as [|d ds IH]; [reflexivity|].
  rewrite bulk_decorate_cons, IH. reflexivity.
Qed.

Lemma bulk_decorate_announce {Req Resp : Type} (labels : list string)
    (h : traced Req Resp) (req : Req) :
  utils.bulk_decorate (map announce labels) h req
  = ((labels ++ fst (h req))%list, snd (h req)).
Proof.
  induction labels as [|l labels IH]; simpl.
  - change (utils.bulk_decorate [] h req) with (h req).
    destruct (h req); reflexivity.
  - rewrite bulk_decorate_cons. unfold announce at 1. rewrite IH. reflexivity.
Qed.

(** C5. [bulk_decorate [d1; ...; dn] f] is [d1 (d2 (... (dn f)))]: the
    decorators are applied last to first, the first-listed one is the
    outermost wrapper, and on a call the wrappers run in listed order
    before the target handler. *)
Theorem bulk_decorate_first_listed_outermost :
  (forall (H : Type) (ds : list (H -> H)) (f : H),
      utils.bulk_decorate ds f = fold_right (fun d acc => d acc) f ds)
  /\ (forall (H : Type) (d : H -> H) (ds : list (H -> H)) (f : H),
      utils.bulk_decorate (d :: ds) f = d (utils.bulk_decorate ds f))
  /\ (forall (Req Resp : Type) (labels : list string)
        (h : traced Req Resp) (req : Req),
      utils.bulk_decorate (map announce labels) h req
      = ((labels ++ fst (h req))%list, snd (h req))).
Proof.
  split; [|split].
  - intros; apply bulk_decorate_fold_right.
  - intros; apply bulk_decorate_cons.
  - intros; apply bulk_decorate_announce.
Qed.

(** ** Properties of [GenericResource] *)

Section GenericResourceProperties.
Context {Entity : Type}.
Implicit Types self cls : Resource Entity.

Lemma get_queryset_declared self m :
  model self = Some m -> GenericResource.get_queryset self = Ok (query m).
Proof. intros Hm. unfold GenericResource.get_queryset. rewrite Hm. reflexivity. Qed.

Lemma get_queryset_undeclared self :
  model self = None ->
  GenericResource.get_queryset self
  = Raise (AssertionError
      ("'" ++ class_name self ++ "' should either include a `queryset` attribute, "
       ++ "or override the `get_queryset()` method.")).
Proof. intros Hm. unfold GenericResource.get_queryset. rewrite Hm. reflexivity. Qed.

(** C9. [get_queryset] fails with the assertion error (and its message
    naming the class) exactly when [model] is [None]; when [model] is
    declared it returns [model.query]. *)
Theorem get_queryset_asserts_model self :
  ((exists msg, GenericResource.get_queryset self = Raise (AssertionError msg))
     <-> model self = None)
  /\ (model self = None ->
      GenericResource.get_queryset self
      = Raise (AssertionError
          ("'" ++ class_name self ++ "' should either include a `queryset` attribute, "
           ++ "or override the `get_queryset()` method.")))
  /\ (forall m, model self = Some m ->
      GenericResource.get_queryset self = Ok (query m)).
Proof.
  split; [|split].
  - split.
    + intros [msg Hraise]. destruct (model self) as [m|] eqn:Hm; [|reflexivity].
      rewrite (get_queryset_declared self m Hm) in Hraise. discriminate.
    + intros Hm. eexists. apply get_queryset_undeclared, Hm.
  - apply get_queryset_undeclared.
  - intros m. apply get_queryset_declared.
Qed.

End GenericResourceProperties.

(** C9 on a resource without a model and on one with the [Widget] model. *)
Lemma get_queryset_asserts_model_witness :
  GenericResource.get_queryset Example.unnamed
  = Raise (AssertionError
      "'Widgets' should either include a `queryset` attribute, or override the `get_queryset()` method.")
  /\ GenericResource.get_queryset Example.paginated = Ok (query Example.Widget).
Proof.
  split.
  - apply (proj1 (proj2 (get_queryset_asserts_model Example.unnamed))). reflexivity.
  - apply (proj2 (proj2 (get_queryset_asserts_model Example.paginated))). reflexivity.
Defined.

(** ** Properties of [ListAPIResource] *)

Section ListAPIResourceProperties.
Context {Entity H : Type}.
Implicit Types self cls : Resource Entity.
Implicit Types namespace : Namespace Entity H.

(** The three entries of the settings of the list handler. *)
Lemma list_settings_entries cls namespace sc :
  schema cls = Some sc ->
  exists settings,
    ListAPIResource.get_method_input_output_settings cls namespace = Ok settings
    /\ settings !! "response_schemas"
       = Some (Several
           [ response namespace (mkResponseKwargs (Some 400%Z) None);
             response namespace (mkResponseKwargs None (Some (SchemaInstance sc true))) ])
    /\ settings !! "parameters"
       = match pagination_class cls, parameters cls with
         | Some p, _ => Some (Single (ns_parameters namespace (new p)))
         | None, Some p => Some (Single (ns_parameters namespace (new p)))
         | None, None => None
         end
    /\ settings !! "permissions"
       = if is_nonempty (permission_classes cls)
         then Some (Several
                (map (fun permission => permission_required namespace (new permission))
                     (default [] (permission_classes cls))))
         else None.
Proof.
  intros Hsc. unfold ListAPIResource.get_method_input_output_settings.
  rewrite Hsc. simpl.
  eexists. split; [reflexivity|].
  destruct (pagination_class cls), (parameters cls),
    (permission_classes cls) as [[|]|]; simpl;
    repeat split; by simplify_map_eq.
Qed.

(** C7. The settings of the list handler hold one value under
    ["parameters"]: the validator built from [pagination_class] when it
    is declared, else the one built from [parameters] when that is
    declared, else none; the two are never attached together. Without a
    schema no settings are computed at all. *)
Theorem list_settings_single_parameters_entry cls namespace :
  match ListAPIResource.get_method_input_output_settings cls namespace with
  | Ok settings =>
      is_Some (schema cls)
      /\ settings !! "parameters"
         = match pagination_class cls, parameters cls with
           | Some p, _ => Some (Single (ns_parameters namespace (new p)))
           | None, Some p => Some (Single (ns_parameters namespace (new p)))
           | None, None => None
           end
  | Raise e =>
      schema cls = None /\ e = TypeError "'NoneType' object is not callable"
  end.
Proof.
  destruct (schema cls) as [sc|] eqn:Hsc.
  - destruct (list_settings_entries cls namespace sc Hsc)
      as (settings & -> & _ & Hparameters & _).
    split; [eauto | exact Hparameters].
  - unfold ListAPIResource.get_method_input_output_settings.
    rewrite Hsc. simpl. split; reflexivity.
Qed.

(** What [_get_method_decorators] returns for a resource with a schema. *)
Lemma get_method_decorators_eq cls namespace sc :
  schema cls = Some sc ->
  ListAPIResource._get_method_decorators cls namespace
  = Ok (match pagination_class cls, parameters cls with
        | Some p, _ | None, Some p =>
            [ response namespace (mkResponseKwargs (Some 400%Z) None);
              response namespace (mkResponseKwargs None (Some (SchemaInstance sc true)));
              ns_parameters namespace (new p) ]
        | None, None =>
            if is_nonempty (permission_classes cls)
            then map (fun permission => permission_required namespace (new permission))
                     (default [] (permission_classes cls))
            else []
        end).
Proof.
  intros Hsc. unfold ListAPIResource._get_method_decorators.
  destruct (list_settings_entries cls namespace sc Hsc)
    as (settings & -> & Hresponses & Hparameters & Hpermissions).
  simpl. unfold getlist, getone.
  rewrite Hresponses, Hparameters, Hpermissions.
  destruct (pagination_class cls), (parameters cls); simpl; try reflexivity.
  destruct (is_nonempty (permission_classes cls)); reflexivity.
Qed.

End ListAPIResourceProperties.

Section ListHandlerProperties.
Context {Entity : Type}.
Implicit Types self : Resource Entity.
Implicit Types jsonify : list value -> list (string * value) -> result Response.

(** Without a pagination class the handler dumps the base queryset. *)
Lemma get_unpaginated jsonify self args kwargs :
  pagination_class self = None ->
  ListAPIResource.get jsonify self args kwargs
  = (schema_class ← call_class (schema self);
     queryset ← GenericResource.get_queryset self;
     collection ← schema_dump schema_class true queryset true;
     if truthy (errors collection)
     then jsonify [errors collection] [("status", PyInt 400)]
     else jsonify [data collection] []).
Proof.
  intros Hp. unfold ListAPIResource.get, GenericResource.get_schema.
  rewrite Hp. simpl.
  destruct (call_class (schema self)); simpl; [|reflexivity].
  destruct (GenericResource.get_queryset self); reflexivity.
Qed.

(** C10. With [pagination_class = None] the response of [get] does not
    depend on [pagination_args] (nor on the keyword arguments): the
    handler dumps the base queryset, to which no offset or limit has been
    applied. *)
Theorem get_ignores_pagination_args jsonify self args1 args2 kwargs1 kwargs2 :
  pagination_class self = None ->
  ListAPIResource.get jsonify self args1 kwargs1
  = ListAPIResource.get jsonify self args2 kwargs2
  /\ ListAPIResource.get jsonify self args1 kwargs1
     = (schema_class ← call_class (schema self);
        queryset ← GenericResource.get_queryset self;
        collection ← schema_dump schema_class true queryset true;
        if truthy (errors collection)
        then jsonify [errors collection] [("status", PyInt 400)]
        else jsonify [data collection] []).
Proof.
  intros Hp. split.
  - rewrite !get_unpaginated by exact Hp. reflexivity.
  - apply get_unpaginated, Hp.
Qed.

Lemma paginate_eq self args q pc dumped o l :
  pagination_class self = Some pc ->
  parameters_dump pc args = Ok dumped ->
  getitem (data dumped) "offset" = Ok o ->
  getitem (data dumped) "limit" = Ok l ->
  ListAPIResource._paginate self args (Some q) = Ok (limit l (offset o q)).
Proof.
  intros Hpc Hdump Ho Hl. unfold ListAPIResource._paginate.
  rewrite Hpc, Hdump. simpl. rewrite Ho. simpl. rewrite Hl. reflexivity.
Qed.

Lemma fetch_offset_limit (q : Query Entity) (o l : nat) :
  fetch (limit (PyInt (Z.of_nat l)) (offset (PyInt (Z.of_nat o)) q))
  = Some (take l (drop o (q_rows q))).
Proof.
  unfold fetch, limit, offset, bound. simpl.
  destruct (Z.leb_spec 0 (Z.of_nat o)); [|lia].
  destruct (Z.leb_spec 0 (Z.of_nat l)); [|lia].
  rewrite !Nat2Z.id. reflexivity.
Qed.

Lemma page_items (rows : list Entity) (o l i : nat) :
  length (take l (drop o rows)) <= l
  /\ (i < length (take l (drop o rows)) ->
      take l (drop o rows) !! i = rows !! (o + i)).
Proof.
  split.
  - rewrite length_take. lia.
  - rewrite length_take. intros Hi.
    rewrite lookup_take_lt by lia. apply lookup_drop.
Qed.

(** C6. With a pagination class declared, [get] dumps
    [queryset.offset(o).limit(l)], where [queryset] is the base queryset
    and [o] and [l] are the ["offset"] and ["limit"] entries of what the
    pagination class makes of [pagination_args]; for natural numbers [o]
    and [l] that query yields at most [l] rows, the [i]-th of which is
    row [o + i] of the base collection. *)
Theorem get_applies_offset_and_limit jsonify self args kwargs m sc pc dumped o l :
  model self = Some m ->
  schema self = Some sc ->
  pagination_class self = Some pc ->
  parameters_dump pc args = Ok dumped ->
  getitem (data dumped) "offset" = Ok o ->
  getitem (data dumped) "limit" = Ok l ->
  ListAPIResource._paginate self args (Some (query m))
  = Ok (limit l (offset o (query m)))
  /\ ListAPIResource.get jsonify self args kwargs
     = (collection ← schema_dump sc true (limit l (offset o (query m))) true;
        if truthy (errors collection)
        then jsonify [errors collection] [("status", PyInt 400)]
        else jsonify [data collection] [])
  /\ forall no nl : nat,
       o = PyInt (Z.of_nat no) -> l = PyInt (Z.of_nat nl) ->
       exists listed,
         fetch (limit l (offset o (query m))) = Some listed
         /\ length listed <= nl
         /\ forall i, i < length listed ->
              listed !! i = q_rows (query m) !! (no + i).
Proof.
  intros Hm Hsc Hpc Hdump Ho Hl.
  pose proof (paginate_eq self args (query m) pc dumped o l Hpc Hdump Ho Hl) as Hpage.
  split; [exact Hpage|]. split.
  - unfold ListAPIResource.get, GenericResource.get_schema.
    rewrite Hsc, (get_queryset_declared self m Hm), Hpc. simpl.
    rewrite Hpage. reflexivity.
  - intros no nl -> ->. eexists. split; [apply fetch_offset_limit|].
    split; [apply (page_items _ no nl 0)|].
    intros i. apply page_items.
Qed.

Lemma flask_jsonify_status args kwargs r :
  flask_jsonify args kwargs = Ok r -> status r = 200%Z.
Proof.
  unfold flask_jsonify. intros Hr.
  destruct args as [|a [|b args]], kwargs as [|kw kwargs];
    inversion Hr; reflexivity.
Qed.

(** Whatever [get] hands to [jsonify], a response that always has status
    200 when [jsonify] always answers 200. *)
Lemma get_status jsonify self args kwargs r :
  (forall a k r', jsonify a k = Ok r' -> status r' = 200%Z) ->
  ListAPIResource.get jsonify self args kwargs = Ok r -> status r = 200%Z.
Proof.
  intros Hj. unfold ListAPIResource.get.
  destruct (call_class _); simpl; [|discriminate].
  destruct (GenericResource.get_queryset self); simpl; [|discriminate].
  destruct (if is_declared _ then _ else _); simpl; [|discriminate].
  destruct (schema_dump _ _ _ _) as [collection|]; simpl; [|discriminate].
  destruct (truthy (errors collection)); apply Hj.
Qed.

(** When the dump reports errors, [get] calls [jsonify] with the errors
    as positional argument and [status=400] as keyword argument, which
    Flask refuses. *)
Lemma get_on_errors self args kwargs m sc collection :
  model self = Some m ->
  schema self = Some sc ->
  pagination_class self = None ->
  schema_dump sc true (query m) true = Ok collection ->
  truthy (errors collection) = true ->
  ListAPIResource.get flask_jsonify self args kwargs
  = Raise (TypeError "jsonify() behavior undefined when passed both args and kwargs").
Proof.
  intros Hm Hsc Hp Hdump Herr.
  rewrite get_unpaginated by exact Hp.
  rewrite Hsc, (get_queryset_declared self m Hm). simpl.
  rewrite Hdump. simpl. rewrite Herr. reflexivity.
Qed.

(** When the dump reports no errors, [get] answers 200 with the data. *)
Lemma get_on_success self args kwargs m sc collection :
  model self = Some m ->
  schema self = Some sc ->
  pagination_class self = None ->
  schema_dump sc true (query m) true = Ok collection ->
  truthy (errors collection) = false ->
  ListAPIResource.get flask_jsonify self args kwargs
  = Ok (mkResponse (data collection) 200).
Proof.
  intros Hm Hsc Hp Hdump Herr.
  rewrite get_unpaginated by exact Hp.
  rewrite Hsc, (get_queryset_declared self m Hm). simpl.
  rewrite Hdump. simpl. rewrite Herr. reflexivity.
Qed.

End ListHandlerProperties.

(** C10 on the plain [Widget] list resource: no arguments and a malformed
    value give the same response. *)
Lemma get_ignores_pagination_args_witness :
  ListAPIResource.get flask_jsonify (Example.plain KListAPIResource ["GET"]) PyNone []
  = ListAPIResource.get flask_jsonify (Example.plain KListAPIResource ["GET"])
      (PyStr "offset=-1") [("limit", PyInt 3)].
Proof.
  apply (get_ignores_pagination_args flask_jsonify
           (Example.plain KListAPIResource ["GET"])
           PyNone (PyStr "offset=-1") [] [("limit", PyInt 3)]).
  reflexivity.
Defined.

(** C6 on the paginated [Widget] resource with [offset=1, limit=2]. *)
Lemma get_applies_offset_and_limit_witness :
  ListAPIResource.get flask_jsonify Example.paginated (Example.page 1 2) []
  = (collection ← Example.dump_names
       (limit (PyInt 2) (offset (PyInt 1) (query Example.Widget)));
     if truthy (errors collection)
     then flask_jsonify [errors collection] [("status", PyInt 400)]
     else flask_jsonify [data collection] []).
Proof.
  apply (get_applies_offset_and_limit flask_jsonify Example.paginated
           (Example.page 1 2) [] Example.Widget Example.WidgetSchema
           Example.PaginationParameters
           (mkMarshalResult (Example.page 1 2) (PyDict []))
           (PyInt 1) (PyInt 2)); reflexivity.
Defined.

(** C4, where the code departs from it: for a schema whose dump reports
    errors, [get] does not answer 400 with the errors as body; the call
    [jsonify(errors, status=400)] raises [TypeError]. No response of
    [get] has a status other than 200. When the dump reports no errors
    the answer is 200 with the data, as claimed. *)
Theorem get_on_errors_is_not_a_400 :
  ListAPIResource.get flask_jsonify Example.strict PyNone []
  = Raise (TypeError "jsonify() behavior undefined when passed both args and kwargs")
  /\ (forall (self : Resource string) args kwargs r,
        ListAPIResource.get flask_jsonify self args kwargs = Ok r ->
        status r = 200%Z)
  /\ ListAPIResource.get flask_jsonify (Example.plain KListAPIResource ["GET"]) PyNone []
     = Ok (mkResponse (PyList (map PyStr Example.rows)) 200).
Proof.
  split; [reflexivity|]. split; [|reflexivity].
  intros self args kwargs r. apply get_status. apply flask_jsonify_status.
Qed.

(** ** Properties of [CreateAPIResource] *)

Section CreateHandlerProperties.
Context {Entity : Type}.
Implicit Types self : Resource Entity.
Implicit Types db : Database Entity.
Implicit Types s : Session Entity.

Lemma flush_ok db (objs rows rows' : list Entity) :
  flush db rows objs = Ok rows' -> rows' = (rows ++ objs)%list.
Proof.
  revert rows. induction objs as [|obj objs IH]; intros rows; simpl.
  - intros [= <-]. by rewrite app_nil_r.
  - destruct (conflict db rows obj); [discriminate|].
    intros Hflush. rewrite (IH _ Hflush), <- app_assoc. reflexivity.
Qed.

Lemma flush_cases db (objs rows : list Entity) :
  (exists msg, flush db rows objs = Raise (IntegrityError msg))
  \/ (exists rows', flush db rows objs = Ok rows').
Proof.
  revert rows. induction objs as [|obj objs IH]; intros rows; simpl.
  - right. eauto.
  - destruct (conflict db rows obj); [left; eauto | apply IH].
Qed.

Lemma post_eq db self args m obj s :
  model self = Some m ->
  construct m args = Ok obj ->
  CreateAPIResource.post db self args s
  = match flush db (committed s) (pending s ++ [obj]) with
    | Ok rows => (Ok obj, mkSession rows [])
    | Raise (IntegrityError msg) => (Raise (HTTPException 409 msg), s)
    | Raise e => (Raise e, s)
    end.
Proof.
  intros Hm Hc.
  unfold CreateAPIResource.post, mbind, M_bind, bind, lift, try_except, begin, add.
  rewrite Hm. simpl. rewrite Hc. simpl.
  destruct (flush db (committed s) (pending s ++ [obj])) as [rows|[]]; reflexivity.
Qed.

(** C3. Once the entity is constructed, [post] either commits it and
    returns it, or, when persisting it raises an integrity conflict,
    aborts with status 409 and the message of the conflict, leaving the
    session as it was; the commit is attempted once. *)
Theorem post_conflict_policy db self args m obj s :
  model self = Some m ->
  construct m args = Ok obj ->
  (forall msg,
      flush db (committed s) (pending s ++ [obj]) = Raise (IntegrityError msg) ->
      CreateAPIResource.post db self args s = (Raise (HTTPException 409 msg), s))
  /\ (forall rows,
      flush db (committed s) (pending s ++ [obj]) = Ok rows ->
      CreateAPIResource.post db self args s = (Ok obj, mkSession rows [])
      /\ rows = (committed s ++ pending s ++ [obj])%list)
  /\ ((exists msg,
        flush db (committed s) (pending s ++ [obj]) = Raise (IntegrityError msg))
      \/ (exists rows, flush db (committed s) (pending s ++ [obj]) = Ok rows))
  /\ (pending s = [] ->
      forall msg, conflict db (committed s) obj = Some msg ->
      CreateAPIResource.post db self args s = (Raise (HTTPException 409 msg), s))
  /\ (pending s = [] ->
      conflict db (committed s) obj = None ->
      CreateAPIResource.post db self args s
      = (Ok obj, mkSession (committed s ++ [obj]) [])).
Proof.
  intros Hm Hc. pose proof (post_eq db self args m obj s Hm Hc) as Hpost.
  split; [|split; [|split; [|split]]].
  - intros msg Hflush. rewrite Hpost, Hflush. reflexivity.
  - intros rows Hflush. split.
    + rewrite Hpost, Hflush. reflexivity.
    + exact (flush_ok _ _ _ _ Hflush).
  - apply flush_cases.
  - intros Hpending msg Hconflict. rewrite Hpost, Hpending. simpl.
    rewrite Hconflict. reflexivity.
  - intros Hpending Hconflict. rewrite Hpost, Hpending. simpl.
    rewrite Hconflict. reflexivity.
Qed.

End CreateHandlerProperties.

(** C3 on the [Widget] store with unique names: a duplicate name is
    answered with 409 and nothing is committed; a fresh name is committed
    and returned. *)
Lemma post_conflict_policy_witness :
  CreateAPIResource.post Example.unique_names (Example.plain KCreateAPIResource ["POST"])
    (PyDict [("name", PyStr "bee")]) (mkSession Example.rows [])
  = (Raise (HTTPException 409 "UNIQUE constraint failed: widget.name bee"),
     mkSession Example.rows [])
  /\ CreateAPIResource.post Example.unique_names (Example.plain KCreateAPIResource ["POST"])
       (PyDict [("name", PyStr "fox")]) (mkSession Example.rows [])
     = (Ok "fox", mkSession (Example.rows ++ ["fox"]) []).
Proof.
  split.
  - apply (post_conflict_policy Example.unique_names
             (Example.plain KCreateAPIResource ["POST"])
             (PyDict [("name", PyStr "bee")]) Example.Widget "bee"
             (mkSession Example.rows [])); reflexivity.
  - apply (post_conflict_policy Example.unique_names
             (Example.plain KCreateAPIResource ["POST"])
             (PyDict [("name", PyStr "fox")]) Example.Widget "fox"
             (mkSession Example.rows [])); reflexivity.
Defined.

(** ** Properties of the decorator lists and of registration *)

Section RegistrationProperties.
Context {Entity H : Type}.
Implicit Types self cls : Resource Entity.
Implicit Types namespace : Namespace Entity H.
Implicit Types attrs : gmap string H.

(** What [_post_method_decorators] returns. *)
Lemma post_method_decorators_eq self namespace :
  CreateAPIResource._post_method_decorators self namespace
  = Ok (match parameters self with
        | Some p =>
            [ response namespace (mkResponseKwargs (Some 400%Z) None);
              response namespace
                (mkResponseKwargs (Some 200%Z) (SchemaType <$> schema self));
              ns_parameters namespace (new p) ]
        | None =>
            if is_nonempty (permission_classes self)
            then map (fun permission => permission_required namespace (new permission))
                     (default [] (permission_classes self))
            else []
        end).
Proof.
  unfold CreateAPIResource._post_method_decorators,
    CreateAPIResource.post_method_settings, CreateAPIResource.get_responses,
    CreateAPIResource.get_parameters_object, CreateAPIResource.get_permissions,
    GenericResource.get_schema.
  destruct (parameters self), (permission_classes self) as [[|]|]; simpl;
    simplify_map_eq; simpl; try reflexivity.
  all: rewrite ?map_map; reflexivity.
Qed.

(** No generic class defines [_post_method_decoratos]. *)
Lemma misspelt_method_missing self :
  CreateAPIResource.getattr_builder (H := H) self "_post_method_decoratos"
  = Raise (AttributeError (class_name self) "_post_method_decoratos").
Proof.
  unfold CreateAPIResource.getattr_builder. destruct (base self); reflexivity.
Qed.

(** Registration of a [CreateAPIResource] never completes: once the
    permission step is through, the lookup of the misspelt method fails,
    and [post] is left as the permission step made it. *)
Lemma create_document_resource_fails cls namespace attrs :
  base cls = KCreateAPIResource ->
  exists e attrs',
    _document_resource cls namespace attrs = (Raise e, attrs')
    /\ (GenericResource._document_resource cls namespace (Some cls) attrs = (Ok tt, attrs') ->
        e = AttributeError (class_name cls) "_post_method_decoratos").
Proof.
  intros Hbase. unfold _document_resource. rewrite Hbase.
  unfold CreateAPIResource._document_resource, mbind, M_bind, bind, lift.
  destruct (GenericResource._document_resource cls namespace (Some cls) attrs)
    as [[[]|e] attrs'].
  - rewrite misspelt_method_missing. do 2 eexists. split; [reflexivity|].
    intros _. reflexivity.
  - do 2 eexists. split; [reflexivity|]. discriminate.
Qed.

(** Registration of a [ListCreateAPIResource] replaces [get] by the list
    chain around it and [post] by the create chain around it; the
    permission step of [GenericResource] is not run. *)
Lemma list_create_document_resource_eq cls namespace attrs sc g p :
  base cls = KListCreateAPIResource ->
  schema cls = Some sc ->
  attrs !! "get" = Some g ->
  attrs !! "post" = Some p ->
  exists get_decorators post_decorators,
    ListAPIResource._get_method_decorators cls namespace = Ok get_decorators
    /\ CreateAPIResource._post_method_decorators cls namespace = Ok post_decorators
    /\ _document_resource cls namespace attrs
       = (Ok tt,
          <["post" := utils.bulk_decorate post_decorators p]>
            (<["get" := utils.bulk_decorate get_decorators g]> attrs)).
Proof.
  intros Hbase Hsc Hg Hp. unfold _document_resource. rewrite Hbase.
  unfold ListCreateAPIResource._document_resource, mbind, M_bind, bind, lift,
    getattr, setattr, wraps.
  rewrite (get_method_decorators_eq cls namespace sc Hsc),
    post_method_decorators_eq, Hg.
  rewrite lookup_insert_ne by discriminate. rewrite Hp.
  do 2 eexists. repeat split; reflexivity.
Qed.

End RegistrationProperties.

(** C1, where the code departs from it: for a resource that declares
    neither parameters nor permissions both decorator lists are empty,
    although the settings hold two response entries, which the list as
    specified begins with; for a resource that declares parameters and a
    permission class both lists end with the parameters entry and lack
    the permission entry that the list as specified ends with. *)
Theorem decorator_lists_drop_entries :
  ListAPIResource._get_method_decorators
    (Example.plain KListAPIResource ["GET"]) recorder = Ok []
  /\ CreateAPIResource._post_method_decorators
       (Example.plain KCreateAPIResource ["POST"]) recorder = Ok []
  /\ (settings ← ListAPIResource.get_method_input_output_settings
                   (Example.plain KListAPIResource ["GET"]) recorder;
      responses ← getlist settings "response_schemas";
      Ok (length responses,
          length (specified_decorators responses None []))) = Ok (2, 2)
  /\ (decorators ← ListAPIResource._get_method_decorators
                     (Example.guarded KListAPIResource ["GET"]) recorder;
      Ok (utils.bulk_decorate decorators ([], "get")))
     = Ok ([ WResponse (Some 400%Z) None;
             WResponse None (Some ("WidgetSchema", Some true));
             WParameters "WidgetParameters" ], "get")
  /\ (settings ← ListAPIResource.get_method_input_output_settings
                   (Example.guarded KListAPIResource ["GET"]) recorder;
      responses ← getlist settings "response_schemas";
      parameters ← getone settings "parameters";
      permissions ← getlist settings "permissions";
      Ok (utils.bulk_decorate
            (specified_decorators responses (Some parameters) permissions)
            ([], "get")))
     = Ok ([ WResponse (Some 400%Z) None;
             WResponse None (Some ("WidgetSchema", Some true));
             WParameters "WidgetParameters";
             WPermission "AdminOnly" ], "get")
  /\ (decorators ← CreateAPIResource._post_method_decorators
                     (Example.guarded KCreateAPIResource ["POST"]) recorder;
      Ok (utils.bulk_decorate decorators ([], "post")))
     = Ok ([ WResponse (Some 400%Z) None;
             WResponse (Some 200%Z) (Some ("WidgetSchema", None));
             WParameters "WidgetParameters" ], "post").
Proof.
  repeat split; reflexivity.
Qed.

(** C2, where the code departs from it: registering a
    [CreateAPIResource] raises [AttributeError], because
    [_document_resource] asks the instance for [_post_method_decoratos];
    no decorator list is computed and [post] is left with the permission
    wrapper of the generic step only. *)
Theorem create_document_resource_raises :
  _document_resource (Example.guarded KCreateAPIResource ["POST"]) recorder
    Example.handlers
  = (Raise (AttributeError "Widgets" "_post_method_decoratos"),
     <["post" := ([WPermission "AdminOnly"], "post")]> Example.handlers)
  /\ _document_resource (Example.plain KCreateAPIResource ["POST"]) recorder
       Example.handlers
     = (Raise (AttributeError "Widgets" "_post_method_decoratos"), Example.handlers).
Proof. split; reflexivity. Qed.

(** C8, where the code departs from it: registering a
    [ListCreateAPIResource] that declares parameters and the permission
    class [AdminOnly] completes, without the permission step of
    [GenericResource], but leaves both [get] and [post] with no
    [AdminOnly] check around them. *)
Theorem list_create_loses_permission_checks :
  fst (_document_resource (Example.guarded KListCreateAPIResource ["GET"; "POST"])
         recorder Example.handlers) = Ok tt
  /\ permission_wraps "AdminOnly"
       <$> snd (_document_resource (Example.guarded KListCreateAPIResource ["GET"; "POST"])
                  recorder Example.handlers) !! "get" = Some 0
  /\ permission_wraps "AdminOnly"
       <$> snd (_document_resource (Example.guarded KListCreateAPIResource ["GET"; "POST"])
                  recorder Example.handlers) !! "post" = Some 0.
Proof. repeat split; reflexivity. Qed.

(** With a permission class and no parameters, each verb of a
    [ListCreateAPIResource] gets the check once. *)
Example list_create_restricted_wraps_once :
  permission_wraps "AdminOnly"
    <$> snd (_document_resource (Example.restricted KListCreateAPIResource ["GET"; "POST"])
               recorder Example.handlers) !! "get" = Some 1
  /\ permission_wraps "AdminOnly"
       <$> snd (_document_resource (Example.restricted KListCreateAPIResource ["GET"; "POST"])
                  recorder Example.handlers) !! "post" = Some 1.
Proof. split; reflexivity. Qed.

(** ** Further properties *)

(** ** Properties of the monad of mutations *)

Lemma bind_ok {S A B : Type} (m : M S A) (k : A -> M S B) s a s' :
  m s = (Ok a, s') -> (x ← m; k x) s = k a s'.
Proof. intros Hm. unfold mbind, M_bind, bind. rewrite Hm. reflexivity. Qed.

Lemma bind_raise {S A B : Type} (m : M S A) (k : A -> M S B) s e s' :
  m s = (Raise e, s') -> (x ← m; k x) s = (Raise e, s').
Proof. intros Hm. unfold mbind, M_bind, bind. rewrite Hm. reflexivity. Qed.

Section GenericStep.
Context {Entity H : Type}.
Implicit Types attrs : gmap string H.
Implicit Types d : H -> H.

Lemma rewrap_verb owner d k attrs f :
  attrs !! k = Some f ->
  (f ← getattr owner k; setattr k (d f)) attrs = (Ok tt, alter d k attrs).
Proof.
  intros Hk. unfold mbind, M_bind, bind, getattr, setattr. rewrite Hk.
  f_equal. apply map_eq. intros j. destruct (decide (k = j)) as [<-|Hne].
  - rewrite lookup_insert_eq, lookup_alter_eq, Hk. reflexivity.
  - rewrite lookup_insert_ne, lookup_alter_ne by exact Hne. reflexivity.
Qed.

Lemma rewrap_missing owner d k attrs :
  attrs !! k = None ->
  (f ← getattr owner k; setattr k (d f)) attrs = (Raise (AttributeError owner k), attrs).
Proof.
  intros Hk. unfold mbind, M_bind, bind, getattr. rewrite Hk. reflexivity.
Qed.

Lemma verbs_present_alter d k attrs (verbs : list string) :
  (forall m, m ∈ verbs -> is_Some (attrs !! lower m)) ->
  forall m, m ∈ verbs -> is_Some (alter d k attrs !! lower m).
Proof.
  intros Hall m Hm. apply lookup_alter_is_Some, Hall, Hm.
Qed.

Lemma verbs_present_foldl d attrs (done verbs : list string) :
  (forall m, m ∈ verbs -> is_Some (attrs !! lower m)) ->
  forall m, m ∈ verbs ->
    is_Some (foldl (fun a v => alter d (lower v) a) attrs done !! lower m).
Proof.
  revert attrs. induction done as [|v done IH]; intros attrs Hall; simpl.
  - exact Hall.
  - apply IH. apply (verbs_present_alter d (lower v) attrs verbs), Hall.
Qed.

Lemma verb_loop owner d (verbs : list string) attrs :
  (forall m, m ∈ verbs -> is_Some (attrs !! lower m)) ->
  for_each verbs (fun method =>
    let method_name := lower method in
    f ← getattr owner method_name; setattr method_name (d f)) attrs
  = (Ok tt, foldl (fun a v => alter d (lower v) a) attrs verbs).
Proof.
  revert attrs. induction verbs as [|v verbs IH]; intros attrs Hall; [reflexivity|].
  destruct (Hall v) as [f Hf]; [left|].
  cbn [for_each foldl].
  erewrite bind_ok by (eapply rewrap_verb, Hf).
  apply IH. intros m Hm. apply (verbs_present_alter d (lower v) attrs verbs); [|exact Hm].
  intros m' Hm'. apply Hall. right. exact Hm'.
Qed.

Lemma decorator_loop owner (ds : list (H -> H)) (verbs : list string) attrs :
  (forall m, m ∈ verbs -> is_Some (attrs !! lower m)) ->
  for_each ds (fun decorator =>
    for_each verbs (fun method =>
      let method_name := lower method in
      f ← getattr owner method_name; setattr method_name (decorator f))) attrs
  = (Ok tt,
     foldl (fun a d => foldl (fun a v => alter d (lower v) a) a verbs) attrs ds).
Proof.
  revert attrs. induction ds as [|d ds IH]; intros attrs Hall; [reflexivity|].
  cbn [for_each foldl].
  erewrite bind_ok by (apply verb_loop, Hall).
  apply IH. apply verbs_present_foldl, Hall.
Qed.

Lemma lookup_rewrapped d (verbs : list string) attrs k :
  NoDup (lower <$> verbs) ->
  foldl (fun a v => alter d (lower v) a) attrs verbs !! k
  = if decide (k ∈ lower <$> verbs) then d <$> attrs !! k else attrs !! k.
Proof.
  revert attrs. induction verbs as [|v verbs IH]; intros attrs Hnd.
  - rewrite decide_False by apply not_elem_of_nil. reflexivity.
  - rewrite fmap_cons in *. cbn [foldl].
    apply NoDup_cons in Hnd as [Hv Hnd]. rewrite IH by exact Hnd.
    destruct (decide (k = lower v)) as [->|Hne].
    + rewrite decide_False by exact Hv.
      rewrite decide_True by left. apply lookup_alter_eq.
    + rewrite lookup_alter_ne by congruence.
      destruct (decide (k ∈ lower <$> verbs)) as [Hin|Hin].
      * rewrite decide_True by (right; exact Hin). reflexivity.
      * rewrite decide_False; [reflexivity|].
        intros [?|?]%elem_of_cons; contradiction.
Qed.

Lemma lookup_rewrapped_all (ds : list (H -> H)) (verbs : list string) attrs k :
  NoDup (lower <$> verbs) ->
  foldl (fun a d => foldl (fun a v => alter d (lower v) a) a verbs) attrs ds !! k
  = if decide (k ∈ lower <$> verbs)
    then (fun h => fold_left (fun h d => d h) ds h) <$> attrs !! k
    else attrs !! k.
Proof.
  intros Hnd. revert attrs. induction ds as [|d ds IH]; intros attrs; cbn [foldl fold_left].
  - destruct (decide _); [|reflexivity]. by destruct (attrs !! k).
  - rewrite IH, lookup_rewrapped by exact Hnd.
    destruct (decide _); [|reflexivity]. by destruct (attrs !! k).
Qed.

Lemma fold_left_wrap_bulk_decorate (ds : list (H -> H)) (h : H) :
  fold_left (fun h d => d h) ds h = utils.bulk_decorate (rev ds) h.
Proof. unfold utils.bulk_decorate. rewrite rev_involutive. reflexivity. Qed.

End GenericStep.


Section GenericStepProperties.
Context {Entity H : Type}.
Implicit Types cls target : Resource Entity.
Implicit Types namespace : Namespace Entity H.
Implicit Types attrs : gmap string H.

(** The permission step as a fold: every permission decorator, in listed
    order, is put around every verb handler. *)
Lemma generic_step_eq cls namespace target attrs :
  (forall m, m ∈ methods target -> is_Some (attrs !! lower m)) ->
  GenericResource._document_resource cls namespace (Some target) attrs
  = (Ok tt,
     foldl (fun a d => foldl (fun a v => alter d (lower v) a) a (methods target)) attrs
       (map (fun permission => permission_required namespace (new permission))
            (default [] (permission_classes target)))).
Proof.
  intros Hall. unfold GenericResource._document_resource.
  destruct (permission_classes target) as [[|p ps]|]; try reflexivity.
  cbn [is_nonempty default map length Nat.ltb Nat.leb].
  apply (decorator_loop (class_name target)), Hall.
Qed.

(** X1. The permission step of [GenericResource] succeeds when every
    listed verb has a handler; with distinct verbs, each verb handler ends
    up inside every permission decorator, the last-listed permission
    outermost (the reverse of the order [bulk_decorate] gives), and every
    other attribute of the class is left as it was. *)
Theorem generic_step_wraps_every_verb cls namespace target attrs :
  NoDup (lower <$> methods target) ->
  (forall m, m ∈ methods target -> is_Some (attrs !! lower m)) ->
  exists attrs',
    GenericResource._document_resource cls namespace (Some target) attrs = (Ok tt, attrs')
    /\ (forall m h, m ∈ methods target -> attrs !! lower m = Some h ->
          attrs' !! lower m
          = Some (utils.bulk_decorate
                    (rev (map (fun permission =>
                                 permission_required namespace (new permission))
                              (default [] (permission_classes target)))) h))
    /\ (forall k, k ∉ lower <$> methods target -> attrs' !! k = attrs !! k).
Proof.
  intros Hnd Hall. eexists. split; [apply generic_step_eq, Hall|]. split.
  - intros m h Hm Hh. rewrite lookup_rewrapped_all by exact Hnd.
    rewrite decide_True by (apply list_elem_of_fmap; eauto).
    rewrite Hh. simpl. rewrite fold_left_wrap_bulk_decorate. reflexivity.
  - intros k Hk. rewrite lookup_rewrapped_all by exact Hnd.
    rewrite decide_False by exact Hk. reflexivity.
Qed.

Lemma verb_loop_missing owner (d : H -> H) (done rest : list string) m attrs :
  (forall v, v ∈ done -> is_Some (attrs !! lower v)) ->
  attrs !! lower m = None ->
  for_each (done ++ m :: rest) (fun method =>
    let method_name := lower method in
    f ← getattr owner method_name; setattr method_name (d f)) attrs
  = (Raise (AttributeError owner (lower m)),
     foldl (fun a v => alter d (lower v) a) attrs done).
Proof.
  revert attrs. induction done as [|v done IH]; intros attrs Hall Hm.
  - cbn [app for_each foldl].
    erewrite bind_raise by (apply rewrap_missing, Hm). reflexivity.
  - destruct (Hall v) as [f Hf]; [left|].
    cbn [app for_each foldl].
    erewrite bind_ok by (eapply rewrap_verb, Hf).
    apply IH.
    + intros v' Hv'. apply lookup_alter_is_Some, Hall. right. exact Hv'.
    + apply lookup_alter_None, Hm.
Qed.

(** X2. Without permission classes ([None] or an empty list) the
    permission step changes nothing and succeeds, whatever verbs are
    listed. With permission classes, the first listed verb that has no
    handler raises [AttributeError] naming the class and the lower-cased
    verb, and the verbs listed before it keep the wrapper of the first
    permission: the step is not undone. *)
Theorem generic_step_missing_handler cls namespace target attrs :
  (is_nonempty (permission_classes target) = false ->
   GenericResource._document_resource cls namespace (Some target) attrs = (Ok tt, attrs))
  /\ (forall p ps done m rest,
        permission_classes target = Some (p :: ps) ->
        methods target = (done ++ m :: rest)%list ->
        (forall v, v ∈ done -> is_Some (attrs !! lower v)) ->
        attrs !! lower m = None ->
        GenericResource._document_resource cls namespace (Some target) attrs
        = (Raise (AttributeError (class_name target) (lower m)),
           foldl (fun a v => alter (permission_required namespace (new p)) (lower v) a)
             attrs done)).
Proof.
  split.
  - intros Hperms. unfold GenericResource._document_resource. rewrite Hperms.
    reflexivity.
  - intros p ps done m rest Hperms Hmethods Hall Hm.
    unfold GenericResource._document_resource. rewrite Hperms, Hmethods.
    cbn [is_nonempty default from_option id map length Nat.ltb Nat.leb for_each].
    erewrite bind_raise by (apply verb_loop_missing; [exact Hall | exact Hm]).
    reflexivity.
Qed.

End GenericStepProperties.

(** X1 on a resource with both verbs and one permission class. *)
Lemma generic_step_wraps_every_verb_witness :
  exists attrs',
    GenericResource._document_resource
      (Example.restricted KListCreateAPIResource ["GET"; "POST"]) recorder
      (Some (Example.restricted KListCreateAPIResource ["GET"; "POST"]))
      Example.handlers = (Ok tt, attrs')
    /\ attrs' !! "get" = Some ([WPermission "AdminOnly"], "get")
    /\ attrs' !! "post" = Some ([WPermission "AdminOnly"], "post").
Proof.
  destruct (generic_step_wraps_every_verb
              (Example.restricted KListCreateAPIResource ["GET"; "POST"]) recorder
              (Example.restricted KListCreateAPIResource ["GET"; "POST"])
              Example.handlers)
    as (attrs' & Hrun & Hverbs & _).
  - apply NoDup_cons. split; [|apply NoDup_singleton].
    intros Hin%list_elem_of_singleton. discriminate Hin.
  - intros m [->|[->|[]%elem_of_nil]%elem_of_cons]%elem_of_cons; vm_compute; eauto.
  - exists attrs'. split; [exact Hrun|]. split.
    + apply (Hverbs "GET" ([], "get")); [left | reflexivity].
    + apply (Hverbs "POST" ([], "post")); [right; left | reflexivity].
Defined.

(** X2 on a resource that lists a verb, [PUT], it has no handler for. *)
Lemma generic_step_missing_handler_witness :
  GenericResource._document_resource
    (Example.restricted KListAPIResource ["GET"; "PUT"]) recorder
    (Some (Example.restricted KListAPIResource ["GET"; "PUT"])) Example.handlers
  = (Raise (AttributeError "Widgets" "put"),
     foldl (fun a v => alter (permission_required (Entity := string) recorder
                                (new Example.AdminOnly))
                         (lower v) a)
       Example.handlers ["GET"]).
Proof.
  apply (proj2 (generic_step_missing_handler
                  (Example.restricted KListAPIResource ["GET"; "PUT"]) recorder
                  (Example.restricted KListAPIResource ["GET"; "PUT"])
                  Example.handlers)
           Example.AdminOnly [] ["GET"] "PUT" []); try reflexivity.
  intros v ->%list_elem_of_singleton. vm_compute. eauto.
Defined.



Section ListRegistration.
Context {Entity H : Type}.
Implicit Types cls : Resource Entity.
Implicit Types namespace : Namespace Entity H.
Implicit Types attrs : gmap string H.

Lemma generic_step_get_only cls namespace attrs g :
  methods cls = ["GET"] ->
  attrs !! "get" = Some g ->
  GenericResource._document_resource cls namespace (Some cls) attrs
  = (Ok tt,
     <["get" := utils.bulk_decorate
                  (rev (map (fun permission =>
                               permission_required namespace (new permission))
                            (default [] (permission_classes cls)))) g]> attrs).
Proof.
  intros Hmethods Hg.
  rewrite generic_step_eq
    by (rewrite Hmethods; intros m ->%list_elem_of_singleton;
        change (lower "GET") with "get"; rewrite Hg; eauto).
  f_equal. apply map_eq. intros k.
  rewrite lookup_rewrapped_all by (rewrite Hmethods; apply NoDup_singleton).
  rewrite Hmethods. change (lower <$> ["GET"]) with ["get"].
  destruct (decide (k = "get")) as [->|Hne].
  - rewrite decide_True by left. rewrite Hg, lookup_insert_eq. simpl.
    rewrite fold_left_wrap_bulk_decorate. reflexivity.
  - rewrite decide_False by (by intros ?%list_elem_of_singleton).
    rewrite lookup_insert_ne by congruence. reflexivity.
Qed.

(** X3. Registering a [ListAPIResource] whose only verb is [GET]
    replaces [get] by the decorator chain of [_get_method_decorators]
    around the handler already wrapped by the permission step; no other
    attribute changes. *)
Theorem list_registration_wraps_get cls namespace attrs sc g :
  base cls = KListAPIResource ->
  schema cls = Some sc ->
  methods cls = ["GET"] ->
  attrs !! "get" = Some g ->
  exists chain,
    ListAPIResource._get_method_decorators cls namespace = Ok chain
    /\ _document_resource cls namespace attrs
       = (Ok tt,
          <["get" := utils.bulk_decorate chain
                       (utils.bulk_decorate
                          (rev (map (fun permission =>
                                       permission_required namespace (new permission))
                                    (default [] (permission_classes cls)))) g)]> attrs).
Proof.
  intros Hbase Hsc Hmethods Hg. eexists. split.
  - apply (get_method_decorators_eq cls namespace sc Hsc).
  - unfold _document_resource. rewrite Hbase.
    unfold ListAPIResource._document_resource.
    erewrite bind_ok by (apply generic_step_get_only; eassumption).
    rewrite (get_method_decorators_eq cls namespace sc Hsc).
    unfold mbind, M_bind, bind, lift, getattr, setattr, wraps.
    rewrite lookup_insert_eq, insert_insert_eq. reflexivity.
Qed.

(** X4. Without a schema, registration raises [TypeError]. A
    [ListCreateAPIResource] is left untouched; a [ListAPIResource] has
    been through the permission step by then and keeps its effect. *)
Theorem registration_without_schema cls namespace attrs :
  schema cls = None ->
  (base cls = KListCreateAPIResource ->
   _document_resource cls namespace attrs
   = (Raise (TypeError "'NoneType' object is not callable"), attrs))
  /\ (base cls = KListAPIResource ->
      forall attrs',
        GenericResource._document_resource cls namespace (Some cls) attrs = (Ok tt, attrs') ->
        _document_resource cls namespace attrs
        = (Raise (TypeError "'NoneType' object is not callable"), attrs')).
Proof.
  intros Hsc. split.
  - intros Hbase. unfold _document_resource. rewrite Hbase.
    unfold ListCreateAPIResource._document_resource,
      ListAPIResource._get_method_decorators,
      ListAPIResource.get_method_input_output_settings.
    rewrite Hsc. reflexivity.
  - intros Hbase attrs' Hstep. unfold _document_resource. rewrite Hbase.
    unfold ListAPIResource._document_resource.
    erewrite bind_ok by exact Hstep.
    unfold ListAPIResource._get_method_decorators,
      ListAPIResource.get_method_input_output_settings.
    rewrite Hsc. reflexivity.
Qed.

End ListRegistration.

(** X3 on the list resource with one permission class. *)
Lemma list_registration_wraps_get_witness :
  exists chain,
    ListAPIResource._get_method_decorators
      (Example.restricted KListAPIResource ["GET"]) recorder = Ok chain
    /\ _document_resource (Example.restricted KListAPIResource ["GET"]) recorder
         Example.handlers
       = (Ok tt,
          <["get" := utils.bulk_decorate chain
                       (utils.bulk_decorate
                          (rev (map (fun permission =>
                                       permission_required (Entity := string) recorder
                                         (new permission))
                                    [Example.AdminOnly])) ([], "get"))]>
            Example.handlers).
Proof.
  apply (list_registration_wraps_get (Example.restricted KListAPIResource ["GET"])
           recorder Example.handlers Example.WidgetSchema ([], "get"));
    reflexivity.
Defined.

(** X4 on a list-and-create resource without a schema. *)
Lemma registration_without_schema_witness :
  _document_resource
    (mkResource "Widgets" KListCreateAPIResource (Some Example.Widget) None None
       (Some [Example.AdminOnly]) None ["GET"; "POST"])
    recorder Example.handlers
  = (Raise (TypeError "'NoneType' object is not callable"), Example.handlers).
Proof.
  apply (proj1 (registration_without_schema
                  (mkResource "Widgets" KListCreateAPIResource (Some Example.Widget)
                     None None (Some [Example.AdminOnly]) None ["GET"; "POST"])
                  recorder Example.handlers eq_refl)).
  reflexivity.
Defined.


Section RecordedPermissions.
Context {Entity : Type}.
Implicit Types cls : Resource Entity.
Implicit Types attrs : gmap string described.
Implicit Types h : described.

Lemma permission_wraps_response p (kw : response_kwargs Entity) h :
  permission_wraps p (response recorder kw h) = permission_wraps p h.
Proof. reflexivity. Qed.

Lemma permission_wraps_parameters p (c : ParametersClass) h :
  permission_wraps p (ns_parameters (Entity := Entity) recorder (new c) h)
  = permission_wraps p h.
Proof. reflexivity. Qed.

Lemma permission_wraps_required p (c : PermissionClass) h :
  permission_wraps p (permission_required (Entity := Entity) recorder (new c) h)
  = (if String.eqb p (permission_name c) then 1 else 0) + permission_wraps p h.
Proof.
  unfold permission_wraps. simpl. destruct (String.eqb p (permission_name c)); reflexivity.
Qed.

Lemma permission_wraps_chain p (perms : list PermissionClass) h :
  permission_wraps p
    (utils.bulk_decorate
       (map (fun permission => permission_required (Entity := Entity) recorder (new permission))
            perms) h)
  = length (List.filter (String.eqb p) (permission_name <$> perms))
    + permission_wraps p h.
Proof.
  induction perms as [|c perms IH]; [reflexivity|].
  cbn [map]. rewrite bulk_decorate_cons, permission_wraps_required, IH.
  rewrite fmap_cons. cbn [List.filter].
  destruct (String.eqb p (permission_name c)); simpl; lia.
Qed.

Lemma permission_wraps_chain_rev p (perms : list PermissionClass) h :
  permission_wraps p
    (utils.bulk_decorate
       (rev (map (fun permission =>
                    permission_required (Entity := Entity) recorder (new permission))
                 perms)) h)
  = length (List.filter (String.eqb p) (permission_name <$> perms))
    + permission_wraps p h.
Proof.
  rewrite <- map_rev, permission_wraps_chain.
  f_equal. change (permission_name <$> rev perms) with (map permission_name (rev perms)).
  rewrite map_rev, List.filter_rev, length_rev. reflexivity.
Qed.

(** X5. After registering a [ListAPIResource] whose only verb is [GET],
    the check of every listed permission class is around [get] twice
    when neither [pagination_class] nor [parameters] is declared (once by
    the permission step, once by the chain) and once when one of them is
    declared. *)
Theorem list_registration_permission_count cls attrs sc g p :
  base cls = KListAPIResource ->
  schema cls = Some sc ->
  methods cls = ["GET"] ->
  attrs !! "get" = Some g ->
  exists g',
    fst (_document_resource cls recorder attrs) = Ok tt
    /\ snd (_document_resource cls recorder attrs) !! "get" = Some g'
    /\ permission_wraps p g'
       = permission_wraps p g
         + (if is_declared (pagination_class cls) || is_declared (parameters cls)
            then 1 else 2)
           * length (List.filter (String.eqb p)
                       (permission_name <$> default [] (permission_classes cls))).
Proof.
  intros Hbase Hsc Hmethods Hg. unfold _document_resource. rewrite Hbase.
  unfold ListAPIResource._document_resource.
  erewrite bind_ok by (apply generic_step_get_only; eassumption).
  rewrite (get_method_decorators_eq cls recorder sc Hsc).
  unfold mbind, M_bind, bind, lift, getattr, setattr, wraps.
  rewrite lookup_insert_eq. cbn [fst snd]. rewrite lookup_insert_eq.
  eexists. split; [reflexivity|]. split; [reflexivity|].
  destruct (pagination_class cls), (parameters cls); cbn [is_declared orb].
  1-3: rewrite !bulk_decorate_cons, permission_wraps_response,
         permission_wraps_response, permission_wraps_parameters;
       change (utils.bulk_decorate [] ?h) with h;
       rewrite permission_wraps_chain_rev; lia.
  destruct (permission_classes cls) as [[|c perms]|]; cbn [is_nonempty default from_option id].
  - unfold utils.bulk_decorate. simpl. lia.
  - rewrite permission_wraps_chain, permission_wraps_chain_rev. lia.
  - unfold utils.bulk_decorate. simpl. lia.
Qed.

(** X6. After registering a [ListCreateAPIResource], the check of a
    listed permission class is around [get] once when neither
    [pagination_class] nor [parameters] is declared and not at all
    otherwise; it is around [post] once when [parameters] is not declared
    and not at all otherwise. It is never added twice. *)
Theorem list_create_registration_permission_count cls attrs sc g h p :
  base cls = KListCreateAPIResource ->
  schema cls = Some sc ->
  attrs !! "get" = Some g ->
  attrs !! "post" = Some h ->
  exists g' h',
    fst (_document_resource cls recorder attrs) = Ok tt
    /\ snd (_document_resource cls recorder attrs) !! "get" = Some g'
    /\ snd (_document_resource cls recorder attrs) !! "post" = Some h'
    /\ permission_wraps p g'
       = permission_wraps p g
         + (if is_declared (pagination_class cls) || is_declared (parameters cls)
            then 0 else 1)
           * length (List.filter (String.eqb p)
                       (permission_name <$> default [] (permission_classes cls)))
    /\ permission_wraps p h'
       = permission_wraps p h
         + (if is_declared (parameters cls) then 0 else 1)
           * length (List.filter (String.eqb p)
                       (permission_name <$> default [] (permission_classes cls))).
Proof.
  intros Hbase Hsc Hg Hh. unfold _document_resource. rewrite Hbase.
  unfold ListCreateAPIResource._document_resource, mbind, M_bind, bind, lift,
    getattr, setattr, wraps.
  rewrite (get_method_decorators_eq cls recorder sc Hsc), post_method_decorators_eq, Hg.
  rewrite lookup_insert_ne by discriminate. rewrite Hh. cbn [fst snd].
  rewrite lookup_insert_eq, lookup_insert_ne by discriminate.
  rewrite lookup_insert_eq.
  do 2 eexists. do 3 (split; [reflexivity|]).
  assert (Hchain : forall h0,
    permission_wraps p
      (utils.bulk_decorate
         (if is_nonempty (permission_classes cls)
          then map (fun permission =>
                      permission_required (Entity := Entity) recorder (new permission))
                   (default [] (permission_classes cls))
          else []) h0)
    = permission_wraps p h0
      + 1 * length (List.filter (String.eqb p)
                      (permission_name <$> default [] (permission_classes cls)))).
  { intros h0. destruct (permission_classes cls) as [[|c perms]|];
      cbn [is_nonempty default from_option id].
    - unfold utils.bulk_decorate. simpl. lia.
    - rewrite permission_wraps_chain. lia.
    - unfold utils.bulk_decorate. simpl. lia. }
  split.
  - destruct (pagination_class cls), (parameters cls); cbn [is_declared orb].
    4: apply Hchain.
    all: rewrite !bulk_decorate_cons, permission_wraps_response,
           permission_wraps_response, permission_wraps_parameters;
         change (utils.bulk_decorate [] ?x) with x; lia.
  - destruct (parameters cls); cbn [is_declared].
    2: apply Hchain.
    rewrite !bulk_decorate_cons, permission_wraps_response,
      permission_wraps_response, permission_wraps_parameters.
    change (utils.bulk_decorate [] ?x) with x. lia.
Qed.

End RecordedPermissions.

(** X5 on the list resource with one permission class: two checks. *)
Lemma list_registration_permission_count_witness :
  exists g',
    fst (_document_resource (Example.restricted KListAPIResource ["GET"]) recorder
           Example.handlers) = Ok tt
    /\ snd (_document_resource (Example.restricted KListAPIResource ["GET"]) recorder
              Example.handlers) !! "get" = Some g'
    /\ permission_wraps "AdminOnly" g' = 2.
Proof.
  apply (list_registration_permission_count
           (Example.restricted KListAPIResource ["GET"]) Example.handlers
           Example.WidgetSchema ([], "get") "AdminOnly"); reflexivity.
Defined.

(** X6 on the list-and-create resource with parameters and one
    permission class: no check on either verb. *)
Lemma list_create_registration_permission_count_witness :
  exists g' h',
    fst (_document_resource (Example.guarded KListCreateAPIResource ["GET"; "POST"])
           recorder Example.handlers) = Ok tt
    /\ snd (_document_resource (Example.guarded KListCreateAPIResource ["GET"; "POST"])
              recorder Example.handlers) !! "get" = Some g'
    /\ snd (_document_resource (Example.guarded KListCreateAPIResource ["GET"; "POST"])
              recorder Example.handlers) !! "post" = Some h'
    /\ permission_wraps "AdminOnly" g' = 0
    /\ permission_wraps "AdminOnly" h' = 0.
Proof.
  apply (list_create_registration_permission_count
           (Example.guarded KListCreateAPIResource ["GET"; "POST"]) Example.handlers
           Example.WidgetSchema ([], "get") ([], "post") "AdminOnly"); reflexivity.
Defined.



(** X7. [bulk_decorate] of a concatenation decorates with the second
    list first and then with the first; the empty list leaves the
    function as it is; and decorating with the reversed list applies the
    decorators first to last. *)
Theorem bulk_decorate_app {H : Type} (ds1 ds2 : list (H -> H)) (f : H) :
  utils.bulk_decorate (ds1 ++ ds2) f
  = utils.bulk_decorate ds1 (utils.bulk_decorate ds2 f)
  /\ utils.bulk_decorate [] f = f
  /\ utils.bulk_decorate (rev ds1) f = fold_left (fun h d => d h) ds1 f.
Proof.
  split; [|split].
  - unfold utils.bulk_decorate. rewrite rev_app_distr, fold_left_app. reflexivity.
  - reflexivity.
  - unfold utils.bulk_decorate. rewrite rev_involutive. reflexivity.
Qed.

Section Settings.
Context {Entity H : Type}.
Implicit Types self cls : Resource Entity.
Implicit Types namespace : Namespace Entity H.

(** X8. The settings of the create handler hold the 400 and 200
    response entries, the 200 one typed to the schema class; a
    ["parameters"] entry exactly when [parameters] is declared; a
    ["permissions"] entry, with one instance per class in listed order,
    exactly when [permission_classes] is a non-empty list; and no other
    key. *)
Theorem post_method_settings_entries self :
  CreateAPIResource.post_method_settings self !! "response_schemas"
  = Some (CreateAPIResource.ResponseSchemas
            [ mkResponseKwargs (Some 400%Z) None;
              mkResponseKwargs (Some 200%Z) (SchemaType <$> schema self) ])
  /\ CreateAPIResource.post_method_settings self !! "parameters"
     = (fun p => CreateAPIResource.ParametersObject (new p)) <$> parameters self
  /\ CreateAPIResource.post_method_settings self !! "permissions"
     = (if is_nonempty (permission_classes self)
        then Some (CreateAPIResource.Permissions
                     (map new (default [] (permission_classes self))))
        else None)
  /\ (forall key, key <> "response_schemas" -> key <> "parameters" ->
        key <> "permissions" ->
        CreateAPIResource.post_method_settings self !! key = None).
Proof.
  unfold CreateAPIResource.post_method_settings, GenericResource.get_schema.
  destruct (parameters self), (permission_classes self) as [[|]|];
    cbn [is_nonempty]; repeat split; intros; by simplify_map_eq.
Qed.

(** X9. For a resource with a schema, the settings of the list handler
    hold the 400 entry and the 200 entry typed to the schema with
    [many=True]; a ["permissions"] entry, with one decorator per class in
    listed order, exactly when [permission_classes] is a non-empty list;
    and no key other than these two and ["parameters"]. *)
Theorem list_settings_responses_and_permissions cls namespace sc :
  schema cls = Some sc ->
  exists settings,
    ListAPIResource.get_method_input_output_settings cls namespace = Ok settings
    /\ settings !! "response_schemas"
       = Some (Several
           [ response namespace (mkResponseKwargs (Some 400%Z) None);
             response namespace (mkResponseKwargs None (Some (SchemaInstance sc true))) ])
    /\ settings !! "permissions"
       = (if is_nonempty (permission_classes cls)
          then Some (Several
                 (map (fun permission => permission_required namespace (new permission))
                      (default [] (permission_classes cls))))
          else None)
    /\ (forall key, key <> "response_schemas" -> key <> "parameters" ->
          key <> "permissions" -> settings !! key = None).
Proof.
  intros Hsc. unfold ListAPIResource.get_method_input_output_settings.
  rewrite Hsc. simpl. eexists. split; [reflexivity|].
  destruct (pagination_class cls), (parameters cls),
    (permission_classes cls) as [[|]|]; simpl;
    repeat split; intros; by simplify_map_eq.
Qed.

End Settings.

(** X9 on the paginated list resource. *)
Lemma list_settings_responses_and_permissions_witness :
  exists settings,
    ListAPIResource.get_method_input_output_settings Example.paginated recorder
    = Ok settings
    /\ settings !! "response_schemas"
       = Some (Several
           [ response (Entity := string) recorder (mkResponseKwargs (Some 400%Z) None);
             response recorder
               (mkResponseKwargs None (Some (SchemaInstance Example.WidgetSchema true))) ])
    /\ settings !! "permissions" = None
    /\ (forall key, key <> "response_schemas" -> key <> "parameters" ->
          key <> "permissions" -> settings !! key = None).
Proof.
  apply (list_settings_responses_and_permissions Example.paginated recorder
           Example.WidgetSchema).
  reflexivity.
Defined.


Section Pagination.
Context {Entity : Type}.
Implicit Types self : Resource Entity.
Implicit Types jsonify : list value -> list (string * value) -> result Response.

(** X10. When the data dumped by the pagination class has no
    ["offset"] entry, [_paginate] raises [KeyError] for ["offset"],
    whether or not there is a ["limit"]; with an ["offset"] and no
    ["limit"] it raises [KeyError] for ["limit"]. *)
Theorem paginate_missing_keys self args q pc dumped items :
  pagination_class self = Some pc ->
  parameters_dump pc args = Ok dumped ->
  data dumped = PyDict items ->
  (assoc "offset" items = None ->
   ListAPIResource._paginate self args (Some q) = Raise (KeyError "offset"))
  /\ (is_Some (assoc "offset" items) -> assoc "limit" items = None ->
      ListAPIResource._paginate self args (Some q) = Raise (KeyError "limit")).
Proof.
  intros Hpc Hdump Hdata. unfold ListAPIResource._paginate.
  rewrite Hpc, Hdump. simpl. rewrite Hdata. unfold getitem. split.
  - intros ->. reflexivity.
  - intros [o ->] ->. reflexivity.
Qed.

(** X11. [_paginate] fails with an assertion error when no
    [pagination_class] is declared, whatever the arguments. Called
    without a queryset it pages [model.query], and fails with the
    assertion error of [get_queryset] when no model is declared either.
    An exception raised by the dump of the pagination class is raised
    before the queryset is looked at. *)
Theorem paginate_without_queryset self args :
  (pagination_class self = None ->
   forall queryset, exists msg,
     ListAPIResource._paginate self args queryset = Raise (AssertionError msg))
  /\ (forall pc dumped,
        pagination_class self = Some pc ->
        parameters_dump pc args = Ok dumped ->
        (forall m, model self = Some m ->
           ListAPIResource._paginate self args None
           = ListAPIResource._paginate self args (Some (query m)))
        /\ (model self = None ->
            ListAPIResource._paginate self args None
            = Raise (AssertionError
                ("'" ++ class_name self ++ "' should either include a `queryset` attribute, "
                 ++ "or override the `get_queryset()` method."))))
  /\ (forall pc e queryset,
        pagination_class self = Some pc ->
        parameters_dump pc args = Raise e ->
        ListAPIResource._paginate self args queryset = Raise e).
Proof.
  split; [|split].
  - intros Hpc queryset. unfold ListAPIResource._paginate. rewrite Hpc. eauto.
  - intros pc dumped Hpc Hdump. unfold ListAPIResource._paginate.
    rewrite Hpc, Hdump. simpl. split.
    + intros m Hm. rewrite (get_queryset_declared self m Hm). reflexivity.
    + intros Hm. rewrite (get_queryset_undeclared self Hm). reflexivity.
  - intros pc e queryset Hpc Hdump. unfold ListAPIResource._paginate.
    rewrite Hpc, Hdump. reflexivity.
Qed.

(** X12. [get] on a resource without a schema raises [TypeError],
    whatever else is declared; with a schema and no model it raises the
    assertion error of [get_queryset], whatever the pagination
    arguments. *)
Theorem get_contract_failures jsonify self args kwargs :
  (schema self = None ->
   ListAPIResource.get jsonify self args kwargs
   = Raise (TypeError "'NoneType' object is not callable"))
  /\ (is_Some (schema self) -> model self = None ->
      ListAPIResource.get jsonify self args kwargs
      = Raise (AssertionError
                ("'" ++ class_name self ++ "' should either include a `queryset` attribute, "
                 ++ "or override the `get_queryset()` method."))).
Proof.
  unfold ListAPIResource.get, GenericResource.get_schema. split.
  - intros ->. reflexivity.
  - intros [sc ->] Hm. simpl. rewrite (get_queryset_undeclared self Hm). reflexivity.
Qed.


End Pagination.

(** X10 on pagination arguments that lack the offset. *)
Lemma paginate_missing_keys_witness :
  ListAPIResource._paginate Example.paginated (PyDict [("limit", PyInt 2)])
    (Some (query Example.Widget))
  = Raise (KeyError "offset").
Proof.
  apply (proj1 (paginate_missing_keys Example.paginated (PyDict [("limit", PyInt 2)])
                  (query Example.Widget) Example.PaginationParameters
                  (mkMarshalResult (PyDict [("limit", PyInt 2)]) (PyDict []))
                  [("limit", PyInt 2)] eq_refl eq_refl eq_refl)).
  reflexivity.
Defined.

(** X11 on the paginated resource: no queryset means [Widget.query]. *)
Lemma paginate_without_queryset_witness :
  ListAPIResource._paginate Example.paginated (Example.page 1 2) None
  = ListAPIResource._paginate Example.paginated (Example.page 1 2)
      (Some (query Example.Widget)).
Proof.
  apply (proj1 (proj1 (proj2 (paginate_without_queryset Example.paginated
                                (Example.page 1 2)))
                  Example.PaginationParameters
                  (mkMarshalResult (Example.page 1 2) (PyDict []))
                  eq_refl eq_refl)).
  reflexivity.
Defined.

(** X12 on the resource without a model. *)
Lemma get_contract_failures_witness :
  ListAPIResource.get flask_jsonify Example.unnamed (Example.page 1 2) []
  = Raise (AssertionError
      ("'" ++ class_name Example.unnamed
       ++ "' should either include a `queryset` attribute, "
       ++ "or override the `get_queryset()` method.")).
Proof.
  apply (proj2 (get_contract_failures flask_jsonify Example.unnamed
                  (Example.page 1 2) [])).
  - vm_compute. eauto.
  - reflexivity.
Defined.



Section Create.
Context {Entity : Type}.
Implicit Types self : Resource Entity.
Implicit Types db : Database Entity.
Implicit Types s : Session Entity.


End Create.




Section TaskProperties.
Context {App Spec : Type}.
Implicit Types f func inner : tasks.function App.
Implicit Types base_argspec : tasks.function App -> Spec.
Implicit Types create_app : M (list App) App.
Implicit Types kwargs options : gmap string (tasks.pyobj App).

Lemma argspec_wraps base_argspec inner f :
  tasks.argspec base_argspec (tasks.functools_wraps inner f)
  = tasks.argspec base_argspec inner.
Proof. reflexivity. Qed.

(** X15. [Task.argspec] of a function wrapped any number of times with
    [functools.wraps] is the one of the innermost function: the base
    method is applied to the first function of the [__wrapped__] chain
    that wraps nothing. *)
Theorem argspec_sees_through_wrappers base_argspec inner (layers : list (tasks.function App)) :
  tasks.argspec base_argspec
    (fold_right (fun layer f => tasks.functools_wraps f layer) inner layers)
  = tasks.argspec base_argspec inner
  /\ (tasks.__wrapped__ inner = None ->
      tasks.argspec base_argspec
        (fold_right (fun layer f => tasks.functools_wraps f layer) inner layers)
      = base_argspec inner).
Proof.
  assert (Hchain :
    tasks.argspec base_argspec
      (fold_right (fun layer f => tasks.functools_wraps f layer) inner layers)
    = tasks.argspec base_argspec inner).
  { induction layers as [|layer layers IH]; [reflexivity|].
    cbn [fold_right]. rewrite argspec_wraps. exact IH. }
  split; [exact Hchain|].
  intros Hplain. rewrite Hchain. destruct inner as [n p c w].
  simpl in Hplain. subst w. reflexivity.
Qed.

(** X16. [app_context_task] gives the same task whether it is applied
    to the function directly or first to the keyword arguments and then
    to the function; positional arguments other than a single one are
    ignored. The task keeps the keyword arguments as options, its body
    has the name of the function, and [Task.argspec] of the body is that
    of the function. *)
Theorem app_context_task_both_forms create_app base_argspec func kwargs :
  tasks.app_context_task create_app [func] kwargs
  = inl (tasks.decorated create_app func kwargs)
  /\ (forall args, length args <> 1 ->
      exists decorator,
        tasks.app_context_task create_app args kwargs = inr decorator
        /\ decorator func = tasks.decorated create_app func kwargs)
  /\ tasks.options (tasks.decorated create_app func kwargs) = kwargs
  /\ tasks.__name__ (tasks.body (tasks.decorated create_app func kwargs))
     = tasks.__name__ func
  /\ tasks.argspec base_argspec (tasks.body (tasks.decorated create_app func kwargs))
     = tasks.argspec base_argspec func.
Proof.
  split; [reflexivity|]. split; [|repeat split].
  intros args Hlen. unfold tasks.app_context_task.
  destruct (Nat.eqb_spec (length args) 1) as [Heq|_]; [contradiction|].
  eexists. split; reflexivity.
Qed.

(** X17. If the task function and [create_app] leave the stack of
    application contexts as they found it, so does the body of the task
    built by [app_context_task], whether the function returns or raises
    and whatever is passed as [app]. *)
Theorem wrapper_releases_app_context create_app func options args kwargs stack :
  (forall a k st, snd (tasks.call func a k st) = st) ->
  (forall st, snd (create_app st) = st) ->
  snd (tasks.call (tasks.body (tasks.decorated create_app func options))
         args kwargs stack) = stack.
Proof.
  intros Hfunc Hcreate. cbn [tasks.decorated tasks.body tasks.functools_wraps tasks.call].
  unfold tasks.wrapper, mbind, M_bind, bind, tasks.app_context.
  destruct (default _ _) as [[]|app]; try reflexivity.
  - specialize (Hcreate stack). destruct (create_app stack) as [[app|e] st]; simpl in *.
    + subst st. specialize (Hfunc args (delete "app" kwargs) (app :: stack)).
      destruct (tasks.call func _ _ _) as [r st]. simpl in *. subst st. reflexivity.
    + exact Hcreate.
  - simpl. specialize (Hfunc args (delete "app" kwargs) (app :: stack)).
    destruct (tasks.call func _ _ _) as [r st]. simpl in *. subst st. reflexivity.
Qed.

(** X18. The body of the task runs the function in the context of the
    application passed as [app]; without one, or with [None], in the
    context of the application [create_app] returns, and when
    [create_app] raises the function is not called. The function never
    receives the [app] keyword. *)
Theorem wrapper_runs_in_given_app create_app func args kwargs stack :
  (forall app,
     kwargs !! "app" = Some (tasks.AppObj app) ->
     tasks.wrapper create_app func args kwargs stack
     = tasks.app_context app (tasks.call func args (delete "app" kwargs)) stack)
  /\ (kwargs !! "app" = None \/ kwargs !! "app" = Some (tasks.Val PyNone) ->
      (forall app stack',
         create_app stack = (Ok app, stack') ->
         tasks.wrapper create_app func args kwargs stack
         = tasks.app_context app (tasks.call func args (delete "app" kwargs)) stack')
      /\ (forall e stack',
            create_app stack = (Raise e, stack') ->
            tasks.wrapper create_app func args kwargs stack = (Raise e, stack')))
  /\ delete "app" kwargs !! "app" = None.
Proof.
  split; [|split].
  - intros app Happ. unfold tasks.wrapper. rewrite Happ. reflexivity.
  - intros Happ. assert (Hdefault : default (tasks.Val PyNone) (kwargs !! "app")
                                    = tasks.Val (App := App) PyNone).
    { destruct Happ as [-> | ->]; reflexivity. }
    unfold tasks.wrapper. rewrite Hdefault. split.
    + intros app stack' Hcreate. erewrite bind_ok by exact Hcreate. reflexivity.
    + intros e stack' Hcreate. erewrite bind_raise by exact Hcreate. reflexivity.
  - apply lookup_delete_eq.
Qed.

End TaskProperties.

(** X15 on a task function wrapped twice. *)
Lemma argspec_sees_through_wrappers_witness :
  tasks.argspec tasks.params
    (tasks.functools_wraps
       (tasks.functools_wraps TaskExample.my_task TaskExample.logged)
       TaskExample.logged)
  = ["context"; "some_arg"; "some_option"].
Proof.
  apply (proj2 (argspec_sees_through_wrappers tasks.params TaskExample.my_task
                  [TaskExample.logged; TaskExample.logged])).
  reflexivity.
Defined.

(** X16 on the decorator used with keyword arguments only. *)
Lemma app_context_task_both_forms_witness :
  exists decorator,
    tasks.app_context_task TaskExample.create_app []
      {[ "help" := tasks.Val (PyStr "useful") ]} = inr decorator
    /\ decorator TaskExample.my_task
       = tasks.decorated TaskExample.create_app TaskExample.my_task
           {[ "help" := tasks.Val (PyStr "useful") ]}.
Proof.
  apply (proj1 (proj2 (app_context_task_both_forms (Spec := list string)
                         TaskExample.create_app tasks.params TaskExample.my_task
                         {[ "help" := tasks.Val (PyStr "useful") ]}))).
  simpl. lia.
Defined.

(** X17 on the sample task called with an application. *)
Lemma wrapper_releases_app_context_witness :
  snd (tasks.call
         (tasks.body (tasks.decorated TaskExample.create_app TaskExample.my_task ∅))
         [] {[ "app" := tasks.AppObj "site" ]} ["outer"]) = ["outer"].
Proof.
  apply (wrapper_releases_app_context TaskExample.create_app TaskExample.my_task
           ∅ [] {[ "app" := tasks.AppObj "site" ]} ["outer"]).
  - intros a k st. reflexivity.
  - intros st. reflexivity.
Defined.

(** X18 on the sample task called with an application. *)
Lemma wrapper_runs_in_given_app_witness :
  tasks.wrapper TaskExample.create_app TaskExample.my_task []
    {[ "app" := tasks.AppObj "site" ]} []
  = tasks.app_context "site"
      (tasks.call TaskExample.my_task [] (delete "app" {[ "app" := tasks.AppObj "site" ]}))
      [].
Proof.
  apply (proj1 (wrapper_runs_in_given_app TaskExample.create_app TaskExample.my_task
                  [] {[ "app" := tasks.AppObj "site" ]} [])).
  reflexivity.
Defined.

